(** * python-amazon-mws: parameter marshalling of the inbound-shipment and
      report clients

    A shallow embedding of [mws/apis/inbound_shipments.py] and
    [mws/apis/reports.py].  Python dictionaries keyed by strings are finite
    maps ([gmap string _]); a raised exception is a value of [result]; the one
    piece of mutable client state, [self.from_address], is threaded
    explicitly. *)

From Stdlib Require Import Ascii.
From stdpp Require Import gmap strings list fin_maps pretty.

Open Scope string_scope.
Open Scope list_scope.

(** ** Python values *)

(** The scalar values the marshalling code handles. *)
Inductive pyval :=
  | PNone
  | PBool (b : bool)
  | PInt (z : Z)
  | PStr (s : string).

#[global] Instance pyval_eq_dec : EqDecision pyval.
Proof. solve_decision. Defined.

(** A dictionary with string keys, as the code builds and reads them. *)
Abbreviation dict := (gmap string pyval).

(** An argument as a caller may pass it: a scalar or a dictionary. *)
Inductive pyobj :=
  | PVal (v : pyval)
  | PDict (d : dict).

(** Python truthiness ([if x:], [not x], [x or y]). *)
Definition truthy (v : pyval) : bool :=
  match v with
  | PNone => false
  | PBool b => b
  | PInt z => negb (Z.eqb z 0)
  | PStr s => negb (String.eqb s "")
  end.

Definition dict_truthy (d : dict) : bool := negb (bool_decide (d = ∅)).

Definition obj_truthy (o : pyobj) : bool :=
  match o with
  | PVal v => truthy v
  | PDict d => dict_truthy d
  end.

(** A list argument that may also be [None]: falsy when [None] or empty. *)
Definition seq_truthy {A} (l : option (list A)) : bool :=
  match l with
  | Some (_ :: _) => true
  | _ => false
  end.

(** [str(v)]. *)
Definition py_str (v : pyval) : string :=
  match v with
  | PNone => "None"
  | PBool true => "True"
  | PBool false => "False"
  | PInt z => pretty z
  | PStr s => s
  end.

(** [isinstance(v, str)]. *)
Definition isinstance_str (v : pyval) : bool :=
  match v with
  | PStr _ => true
  | _ => false
  end.

(** [d.get(k)] and [d.get(k, default)]. *)
Definition dict_get (d : dict) (k : string) (dflt : pyval) : pyval :=
  default dflt (d !! k).

(** [k in d]. *)
Definition dict_has (d : dict) (k : string) : bool :=
  bool_decide (is_Some (d !! k)).

(** [v in l] for a list of string constants. *)
Definition in_strs (v : pyval) (l : list string) : bool :=
  match v with
  | PStr s => bool_decide (s ∈ l)
  | _ => false
  end.

(** A dictionary built entry by entry (a literal or a comprehension): a later
    entry for the same key replaces an earlier one. *)
Definition py_dict (entries : list (string * pyval)) : dict :=
  foldl (λ m kv, <[kv.1 := kv.2]> m) ∅ entries.

(** [d.update(other)]: the entries of [other] win. *)
Definition dict_update (d other : dict) : dict := other ∪ d.

(** ** Exceptions *)

(** [MWSError] is the library's own exception; [assert] raises
    [AssertionError]. *)
Inductive exn :=
  | MWSError (msg : string)
  | AssertionError (msg : string).

Inductive result (A : Type) :=
  | Return (a : A)
  | Raise (e : exn).
Arguments Return {A} a.
Arguments Raise {A} e.

#[global] Instance result_ret : MRet result := λ A a, Return a.

#[global] Instance result_bind : MBind result := λ A B k r,
  match r with
  | Return a => k a
  | Raise e => Raise e
  end.

(** [assert cond, msg] *)
Definition py_assert (cond : bool) (msg : string) : result unit :=
  if cond then Return tt else Raise (AssertionError msg).

(** [if cond: raise MWSError(msg)] *)
Definition raise_if (cond : bool) (msg : string) : result unit :=
  if cond then Raise (MWSError msg) else Return tt.

Definition is_mws_error {A} (r : result A) : Prop :=
  ∃ msg, r = Raise (MWSError msg).

Definition is_assertion_error {A} (r : result A) : Prop :=
  ∃ msg, r = Raise (AssertionError msg).

(** ** Key configurations *)

(** The tuples [(input_key, output_key, is_required, default_value)]. *)
Record key_conf := KeyConf {
  input_key : string;
  output_key : string;
  is_required : bool;
  default_value : pyval;
}.

Definition newline : string := String (Ascii.ascii_of_nat 10) "".

(** [[c[0] for c in key_config if c[2]]] *)
Definition required_keys (key_config : list key_conf) : list string :=
  input_key <$> filter (λ c, is_required c = true) key_config.

(** [[c[0] for c in key_config if not c[2]]] *)
Definition optional_keys (key_config : list key_conf) : list string :=
  input_key <$> filter (λ c, is_required c = false) key_config.

(** The message of the missing-keys error, for [what] one of [item],
    [address]. *)
Definition missing_keys_message (what : string) (key_config : list key_conf)
    : string :=
  "`" +:+ what +:+ "` dict missing required keys: "
    +:+ String.concat ", " (required_keys key_config)
    +:+ "." +:+ newline +:+ "- Optional keys: "
    +:+ String.concat ", " (optional_keys key_config) +:+ ".".

(** [all(k in d for k in required)] *)
Definition has_required (d : dict) (key_config : list key_conf) : bool :=
  forallb (dict_has d) (required_keys key_config).

(** ** [parse_item_args] *)

Definition plan_key_config : list key_conf :=
  [ KeyConf "sku" "SellerSKU" true PNone;
    KeyConf "quantity" "Quantity" true PNone;
    KeyConf "quantity_in_case" "QuantityInCase" false PNone;
    KeyConf "asin" "ASIN" false PNone;
    KeyConf "condition" "Condition" false PNone ].

Definition shipment_key_config : list key_conf :=
  [ KeyConf "sku" "SellerSKU" true PNone;
    KeyConf "quantity" "QuantityShipped" true PNone;
    KeyConf "quantity_in_case" "QuantityInCase" false PNone ].

Definition item_key_config (operation : string) : list key_conf :=
  if String.eqb operation "CreateInboundShipmentPlan"
  then plan_key_config else shipment_key_config.

Definition quantity_key (operation : string) : string :=
  if String.eqb operation "CreateInboundShipmentPlan"
  then "Quantity" else "QuantityShipped".

(** [x = item.get(k); if x is not None: x = str(x)] *)
Definition str_or_none (v : pyval) : pyval :=
  match v with
  | PNone => PNone
  | _ => PStr (py_str v)
  end.

(** The keys of [key_config] that the literal part of [item_dict] does not
    already cover. *)
Definition extra_confs (key_config : list key_conf) : list key_conf :=
  filter (λ c, input_key c ∉ ["sku"; "quantity"; "quantity_in_case"])
    key_config.

(** The body of the loop for one item that passed the checks. *)
Definition item_dict (operation : string) (item : dict) : dict :=
  let quantity := str_or_none (dict_get item "quantity" PNone) in
  let quantity_in_case :=
    str_or_none (dict_get item "quantity_in_case" PNone) in
  dict_update
    (py_dict [ ("SellerSKU", dict_get item "sku" PNone);
               (quantity_key operation, quantity);
               ("QuantityInCase", quantity_in_case) ])
    (py_dict ((λ c, (output_key c,
                     dict_get item (input_key c) (default_value c)))
              <$> extra_confs (item_key_config operation))).

(** [for item in item_args: ...; items.append(item_dict)] *)
Fixpoint parse_item_loop (operation : string) (items : list dict)
    (item_args : list pyobj) : result (list dict) :=
  match item_args with
  | [] => Return items
  | item :: rest =>
      match item with
      | PVal _ => Raise (MWSError "`item` argument must be a dict.")
      | PDict d =>
          if has_required d (item_key_config operation)
          then parse_item_loop operation (items ++ [item_dict operation d])
                 rest
          else Raise (MWSError
                 (missing_keys_message "item" (item_key_config operation)))
      end
  end.

Definition parse_item_args (item_args : option (list pyobj))
    (operation : string) : result (list dict) :=
  _ ← raise_if (negb (seq_truthy item_args))
        "One or more `item` dict arguments required.";
  parse_item_loop operation [] (default [] item_args).

(** An item list on which the loop runs to its end: dictionaries with the
    required keys. *)
Definition well_formed_items (op : string) (item_args : list pyobj)
    (ds : list dict) : Prop :=
  item_args = PDict <$> ds
  ∧ Forall (λ d, has_required d (item_key_config op) = true) ds.

(** ** Collaborators that live outside these two files *)

(** What a method hands to [self.make_request(data, method=...)]: the
    parameter mapping, and the HTTP method when the call names one.  The
    shared client that signs and sends it is not part of these files; a
    method's outcome is the request it hands over, or the exception it raises
    before doing so. *)
Record Request := make_request {
  parameters : dict;
  http_method : option string;
}.

(** The helpers of [mws.utils] that the list methods call; their code is not
    part of these files, so the methods are stated over any implementation.
    [next_token_method] is the HTTP method of a continuation request, which
    the specification leaves open. *)
Class Collaborators := {
  enumerate_param : string → list pyval → dict;
  enumerate_params : list (string * option (list pyval)) → dict;
  dt_iso_or_none : pyval → pyval;
  next_token_method : option string;
}.

Module utils.

(** [prefix.<n>.<Field>] *)
Definition keyed_name (prefix : string) (n : nat) (field : string)
    : string :=
  prefix +:+ "." +:+ pretty n +:+ "." +:+ field.

(** The entries of the dictionaries [values], the first of which gets the
    index [n]; as with successive [update]s, a later dictionary wins. *)
Fixpoint enumerate_keyed_from (prefix : string) (n : nat)
    (values : list dict) : dict :=
  match values with
  | [] => ∅
  | d :: rest =>
      dict_update (kmap (keyed_name prefix n) d)
        (enumerate_keyed_from prefix (S n) rest)
  end.

(** Modelled from the spec: [utils.enumerate_keyed_param], whose code is
    not among the source files; it "turns a list of dicts into
    [prefix.<n>.<Field>] entries", an enumerated parameter being indexed
    from 1. *)
Definition enumerate_keyed_param (prefix : string) (values : list dict)
    : dict :=
  enumerate_keyed_from prefix 1 values.

End utils.

Module decorators.

(** The text of the error for an action that the class does not declare. *)
Definition not_listed_message (action_name : string) : string :=
  action_name
    +:+ " action not listed in this API's NEXT_TOKEN_OPERATIONS. "
    +:+ "Please refer to documentation.".

(** Modelled from the spec: the continuation request of the shared client,
    whose code is not among the source files.  The token rule "applies to
    exactly the methods listed as supporting tokens ... as declared per API
    class": for an action that is not in the class's
    [NEXT_TOKEN_OPERATIONS] ([declared]) the client raises its error and
    sends nothing; for a declared one it issues the request with
    [Action=<OperationName>ByNextToken] and [NextToken=<token>] only. *)
Definition action_by_next_token `{Collaborators} (declared : list string)
    (action_name : string) (next_token : pyval) : result Request :=
  _ ← raise_if (negb (bool_decide (action_name ∈ declared)))
        (not_listed_message action_name);
  Return (make_request
            (py_dict [ ("Action", PStr (action_name +:+ "ByNextToken"));
                       ("NextToken", next_token) ])
            next_token_method).

(** Modelled from the spec: the decorator [next_token_action], whose code
    is not among the source files.  "When a method tagged as paginated is
    invoked with a [next_token] argument set, the wrapper bypasses the
    method's own parameter-building logic and instead issues a request with
    [Action=<OperationName>ByNextToken] and [NextToken=<token>] only";
    without a token the wrapped method runs on its arguments.  [declared]
    is the [NEXT_TOKEN_OPERATIONS] of the class of [self]. *)
Definition next_token_action `{Collaborators} {Args : Type}
    (declared : list string) (action_name : string)
    (request_func : Args → result Request)
    (next_token : pyval) (args : Args) : result Request :=
  match next_token with
  | PNone => request_func args
  | _ => action_by_next_token declared action_name next_token
  end.

End decorators.

(** ** class [InboundShipments] *)

Module InboundShipments.

Definition NEXT_TOKEN_OPERATIONS : list string :=
  [ "ListInboundShipments"; "ListInboundShipmentItems" ].
Definition SHIPMENT_STATUSES : list string :=
  [ "WORKING"; "SHIPPED"; "CANCELLED" ].
Definition DEFAULT_SHIP_STATUS : string := "WORKING".
Definition LABEL_PREFERENCES : list string :=
  [ "SELLER_LABEL"; "AMAZON_LABEL_ONLY"; "AMAZON_LABEL_PREFERRED" ].

(** The state of a client object that these methods read and write:
    [self.from_address], a dictionary or [None]. *)
Record client := Client { from_address : option dict }.

(** [not self.from_address] is false only for a non-empty dictionary. *)
Definition address_is_set (self : client) : bool :=
  match from_address self with
  | Some d => dict_truthy d
  | None => false
  end.

Definition address_key_config : list key_conf :=
  [ KeyConf "name" "Name" true PNone;
    KeyConf "address_1" "AddressLine1" true PNone;
    KeyConf "address_2" "AddressLine2" false PNone;
    KeyConf "city" "City" true PNone;
    KeyConf "district_or_county" "DistrictOrCounty" false PNone;
    KeyConf "state_or_province" "StateOrProvinceCode" false PNone;
    KeyConf "postal_code" "PostalCode" false PNone;
    KeyConf "country" "CountryCode" false (PStr "US") ].

(** [{'ShipFromAddress.{}'.format(c[1]): address.get(c[0], c[3])
      for c in key_config}] *)
Definition parsed_address (address : dict) : dict :=
  py_dict ((λ c, ("ShipFromAddress." +:+ output_key c,
                  dict_get address (input_key c) (default_value c)))
           <$> address_key_config).

(** The method has no [return] statement: where it does not raise, the
    value of the call is [None].  The first component is the client after
    the call, also when the call raises. *)
Definition set_ship_from_address (self : client) (address : pyobj)
    : client * result (option dict) :=
  let self := Client None in
  if negb (obj_truthy address)
  then (self, Raise (MWSError "Missing required `address` dict."))
  else
    match address with
    | PVal _ => (self, Raise (MWSError "`address` must be a dict"))
    | PDict a =>
        if negb (has_required a address_key_config)
        then (self, Raise (MWSError
                (missing_keys_message "address" address_key_config)))
        else (Client (Some (parsed_address a)), Return None)
    end.

(** [addr] is [kwargs.pop('from_address', None)]; [base_init] is the
    outcome of the base class initializer, which is not part of these files
    and does not know of [from_address]. *)
Definition __init__ (addr : pyobj) (base_init : result unit)
    : result client :=
  let self := Client (Some ∅) in
  self ← match addr with
         | PVal PNone => Return self
         | _ =>
             let (self, r) := set_ship_from_address self addr in
             returned ← r;
             Return (Client returned)
         end;
  _ ← base_init;
  Return self.

Definition address_not_set_message : string :=
  "ShipFromAddress has not been set. "
    +:+ "Please use `.set_ship_from_address()` first.".

Definition items_required_message : string :=
  "One or more `item` dict arguments required.".

(** [x or None] *)
Definition or_none (v : pyval) : pyval := if truthy v then v else PNone.

Definition create_inbound_shipment_plan (self : client)
    (items : option (list pyobj))
    (country_code subdivision_code label_preference : pyval)
    : result Request :=
  _ ← raise_if (negb (seq_truthy items)) items_required_message;
  let subdivision_code := or_none subdivision_code in
  let label_preference := or_none label_preference in
  items ← parse_item_args items "CreateInboundShipmentPlan";
  _ ← raise_if (negb (address_is_set self)) address_not_set_message;
  let data :=
    py_dict [ ("Action", PStr "CreateInboundShipmentPlan");
              ("ShipToCountryCode", country_code);
              ("ShipToCountrySubdivisionCode", subdivision_code);
              ("LabelPrepPreference", label_preference) ] in
  let data := dict_update data (default ∅ (from_address self)) in
  let data :=
    dict_update data
      (utils.enumerate_keyed_param
         "InboundShipmentPlanRequestItems.member" items) in
  Return (make_request data (Some "POST")).

(** [{'InboundShipmentHeader.{}'.format(k): v
      for k, v in from_address.items()}] *)
Definition header_address (from_address : dict) : dict :=
  kmap (String.append "InboundShipmentHeader.") from_address.

Definition true_or_false (v : pyval) : pyval :=
  PStr (if truthy v then "true" else "false").

(** The three [assert isinstance(., str)] lines. *)
Definition assert_shipment_strings
    (shipment_id shipment_name destination : pyval) : result unit :=
  _ ← py_assert (isinstance_str shipment_id)
        "`shipment_id` must be a string.";
  _ ← py_assert (isinstance_str shipment_name)
        "`shipment_name` must be a string.";
  py_assert (isinstance_str destination)
    "`destination` must be a string.".

(** The dictionary literal [data] of the create and update methods. *)
Definition shipment_header (action : string)
    (shipment_id shipment_name destination label_preference case_required
     shipment_status box_contents_source : pyval) : dict :=
  py_dict
    [ ("Action", PStr action);
      ("ShipmentId", shipment_id);
      ("InboundShipmentHeader.ShipmentName", shipment_name);
      ("InboundShipmentHeader.DestinationFulfillmentCenterId",
        destination);
      ("InboundShipmentHeader.LabelPrepPreference", label_preference);
      ("InboundShipmentHeader.AreCasesRequired", case_required);
      ("InboundShipmentHeader.ShipmentStatus", shipment_status);
      ("InboundShipmentHeader.IntendedBoxContentsSource",
        box_contents_source) ].

Definition create_inbound_shipment (self : client)
    (shipment_id shipment_name destination : pyval)
    (items : option (list pyobj))
    (shipment_status label_preference case_required
     box_contents_source : pyval) : result Request :=
  _ ← assert_shipment_strings shipment_id shipment_name destination;
  _ ← raise_if (negb (seq_truthy items)) items_required_message;
  items ← parse_item_args items "CreateInboundShipment";
  _ ← raise_if (negb (address_is_set self)) address_not_set_message;
  let from_address := header_address (default ∅ (from_address self)) in
  let shipment_status :=
    if negb (in_strs shipment_status SHIPMENT_STATUSES)
    then PStr DEFAULT_SHIP_STATUS else shipment_status in
  let label_preference :=
    if negb (in_strs label_preference LABEL_PREFERENCES)
    then PNone else label_preference in
  let case_required := true_or_false case_required in
  let data :=
    shipment_header "CreateInboundShipment" shipment_id shipment_name
      destination label_preference case_required shipment_status
      box_contents_source in
  let data := dict_update data from_address in
  let data :=
    dict_update data
      (utils.enumerate_keyed_param "InboundShipmentItems.member" items) in
  Return (make_request data (Some "POST")).

Definition update_inbound_shipment (self : client)
    (shipment_id shipment_name destination : pyval)
    (items : option (list pyobj))
    (shipment_status label_preference case_required
     box_contents_source : pyval) : result Request :=
  _ ← assert_shipment_strings shipment_id shipment_name destination;
  items ← (if seq_truthy items
           then parsed ← parse_item_args items "UpdateInboundShipment";
                Return (Some parsed)
           else Return None);
  _ ← raise_if (negb (address_is_set self)) address_not_set_message;
  let from_address := header_address (default ∅ (from_address self)) in
  let shipment_status :=
    if negb (in_strs shipment_status SHIPMENT_STATUSES)
    then PNone else shipment_status in
  let label_preference :=
    if negb (in_strs label_preference LABEL_PREFERENCES)
    then PNone else label_preference in
  let case_required := true_or_false case_required in
  let data :=
    shipment_header "UpdateInboundShipment" shipment_id shipment_name
      destination label_preference case_required shipment_status
      box_contents_source in
  let data := dict_update data from_address in
  let data :=
    if seq_truthy items
    then dict_update data
           (utils.enumerate_keyed_param "InboundShipmentItems.member"
              (default [] items))
    else data in
  Return (make_request data (Some "POST")).

(** The methods below send nothing of [self] but the request. *)

Definition list_inbound_shipments_body `{Collaborators}
    (shipment_ids shipment_statuses : option (list pyval))
    (last_updated_after last_updated_before : pyval) : result Request :=
  let last_updated_after := dt_iso_or_none last_updated_after in
  let last_updated_before := dt_iso_or_none last_updated_before in
  let data :=
    py_dict [ ("Action", PStr "ListInboundShipments");
              ("LastUpdatedAfter", last_updated_after);
              ("LastUpdatedBefore", last_updated_before) ] in
  let data :=
    dict_update data
      (enumerate_params
         [ ("ShipmentStatusList.member.", shipment_statuses);
           ("ShipmentIdList.member.", shipment_ids) ]) in
  Return (make_request data (Some "POST")).

(** [@next_token_action('ListInboundShipments')] *)
Definition list_inbound_shipments `{Collaborators} (next_token : pyval)
    (shipment_ids shipment_statuses : option (list pyval))
    (last_updated_after last_updated_before : pyval) : result Request :=
  decorators.next_token_action NEXT_TOKEN_OPERATIONS "ListInboundShipments"
    (λ '(ids, statuses, after, before),
       list_inbound_shipments_body ids statuses after before)
    next_token
    (shipment_ids, shipment_statuses, last_updated_after,
     last_updated_before).

Definition list_inbound_shipment_items_body `{Collaborators}
    (shipment_id last_updated_after last_updated_before : pyval)
    : result Request :=
  let last_updated_after := dt_iso_or_none last_updated_after in
  let last_updated_before := dt_iso_or_none last_updated_before in
  let data :=
    py_dict [ ("Action", PStr "ListInboundShipmentItems");
              ("ShipmentId", shipment_id);
              ("LastUpdatedAfter", last_updated_after);
              ("LastUpdatedBefore", last_updated_before) ] in
  Return (make_request data (Some "POST")).

(** [@next_token_action('ListInboundShipmentItems')] *)
Definition list_inbound_shipment_items `{Collaborators}
    (next_token : pyval)
    (shipment_id last_updated_after last_updated_before : pyval)
    : result Request :=
  decorators.next_token_action NEXT_TOKEN_OPERATIONS "ListInboundShipmentItems"
    (λ '(id, after, before),
       list_inbound_shipment_items_body id after before)
    next_token (shipment_id, last_updated_after, last_updated_before).

End InboundShipments.

(** ** class [Reports] *)

Module Reports.

Definition NEXT_TOKEN_OPERATIONS : list string :=
  [ "GetReportRequestList"; "GetReportScheduleList" ].

Definition get_report_list_body `{Collaborators}
    (requestids : list pyval) (max_count : pyval) (types : list pyval)
    (acknowledged fromdate todate : pyval) : result Request :=
  let data :=
    py_dict [ ("Action", PStr "GetReportList");
              ("Acknowledged", acknowledged);
              ("AvailableFromDate", fromdate);
              ("AvailableToDate", todate);
              ("MaxCount", max_count) ] in
  let data :=
    dict_update data (enumerate_param "ReportRequestIdList.Id." requestids)
  in
  let data :=
    dict_update data (enumerate_param "ReportTypeList.Type." types) in
  Return (make_request data None).

(** [@next_token_action('GetReportList')] *)
Definition get_report_list `{Collaborators} (next_token : pyval)
    (requestids : list pyval) (max_count : pyval) (types : list pyval)
    (acknowledged fromdate todate : pyval) : result Request :=
  decorators.next_token_action NEXT_TOKEN_OPERATIONS "GetReportList"
    (λ '(ids, count, tys, ack, from, to),
       get_report_list_body ids count tys ack from to)
    next_token (requestids, max_count, types, acknowledged, fromdate, todate).

Definition get_report_request_list_body `{Collaborators}
    (requestids types processingstatuses : list pyval)
    (max_count fromdate todate : pyval) : result Request :=
  let data :=
    py_dict [ ("Action", PStr "GetReportRequestList");
              ("MaxCount", max_count);
              ("RequestedFromDate", fromdate);
              ("RequestedToDate", todate) ] in
  let data :=
    dict_update data (enumerate_param "ReportRequestIdList.Id." requestids)
  in
  let data :=
    dict_update data (enumerate_param "ReportTypeList.Type." types) in
  let data :=
    dict_update data
      (enumerate_param "ReportProcessingStatusList.Status."
         processingstatuses) in
  Return (make_request data None).

(** [@next_token_action('GetReportRequestList')] *)
Definition get_report_request_list `{Collaborators} (next_token : pyval)
    (requestids types processingstatuses : list pyval)
    (max_count fromdate todate : pyval) : result Request :=
  decorators.next_token_action NEXT_TOKEN_OPERATIONS "GetReportRequestList"
    (λ '(ids, tys, statuses, count, from, to),
       get_report_request_list_body ids tys statuses count from to)
    next_token
    (requestids, types, processingstatuses, max_count, fromdate, todate).

(** Not decorated, and without a [next_token] parameter. *)
Definition get_report_schedule_list `{Collaborators} (types : list pyval)
    : result Request :=
  let data := py_dict [ ("Action", PStr "GetReportScheduleList") ] in
  let data :=
    dict_update data (enumerate_param "ReportTypeList.Type." types) in
  Return (make_request data None).

End Reports.

(** ** Which methods carry the decorator *)

(** A method of a class, the [Action] it sends, and the argument of the
    [@next_token_action(...)] line above its [def], if there is one. *)
Record method_decl := Method {
  method_name : string;
  method_action : string;
  decorated_with : option string;
}.

Definition InboundShipments_methods : list method_decl :=
  [ Method "create_inbound_shipment_plan" "CreateInboundShipmentPlan" None;
    Method "create_inbound_shipment" "CreateInboundShipment" None;
    Method "update_inbound_shipment" "UpdateInboundShipment" None;
    Method "get_prep_instructions_for_sku" "GetPrepInstructionsForSKU" None;
    Method "get_prep_instructions_for_asin" "GetPrepInstructionsForASIN" None;
    Method "get_package_labels" "GetPackageLabels" None;
    Method "get_transport_content" "GetTransportContent" None;
    Method "estimate_transport_request" "EstimateTransportRequest" None;
    Method "void_transport_request" "VoidTransportRequest" None;
    Method "get_bill_of_lading" "GetBillOfLading" None;
    Method "list_inbound_shipments" "ListInboundShipments"
      (Some "ListInboundShipments");
    Method "list_inbound_shipment_items" "ListInboundShipmentItems"
      (Some "ListInboundShipmentItems") ].

(** The two deprecated [..._by_next_token] methods forward to
    [get_report_list] and [get_report_request_list] and build no request of
    their own. *)
Definition Reports_methods : list method_decl :=
  [ Method "get_report" "GetReport" None;
    Method "get_report_count" "GetReportCount" None;
    Method "get_report_list" "GetReportList" (Some "GetReportList");
    Method "get_report_request_count" "GetReportRequestCount" None;
    Method "get_report_request_list" "GetReportRequestList"
      (Some "GetReportRequestList");
    Method "request_report" "RequestReport" None;
    Method "get_report_schedule_list" "GetReportScheduleList" None;
    Method "get_report_schedule_count" "GetReportScheduleCount" None ].

(** The action names of the methods that carry the decorator. *)
Definition wrapped_actions (methods : list method_decl) : list string :=
  method_action <$> filter (λ m, is_Some (decorated_with m)) methods.

(** The wrapped methods are those of the declared operations, and every
    declared operation has its wrapped method. *)
Definition wrapping_matches_declaration (methods : list method_decl)
    (declared : list string) : Prop :=
  ∀ action, action ∈ wrapped_actions methods ↔ action ∈ declared.

(** ** Decimal numerals *)

Definition is_digit (c : ascii) : bool :=
  bool_decide (c ∈ ["0"; "1"; "2"; "3"; "4"; "5"; "6"; "7"; "8"; "9"]%char).

Fixpoint all_digits (s : string) : bool :=
  match s with
  | EmptyString => true
  | String c s' => is_digit c && all_digits s'
  end.

(** ** Inputs to run the model on *)

Definition sample_item : dict :=
  py_dict [ ("sku", PStr "SKU-1"); ("quantity", PInt 3) ].

Definition sample_item_full : dict :=
  py_dict [ ("sku", PStr "SKU-2"); ("quantity", PInt 12);
            ("quantity_in_case", PInt 4); ("asin", PStr "B00TEST");
            ("condition", PStr "NewItem") ].

Definition sample_item_parsed : dict :=
  py_dict [ ("SellerSKU", PStr "SKU-1"); ("Quantity", PStr "3");
            ("QuantityInCase", PNone); ("ASIN", PNone);
            ("Condition", PNone) ].

Definition sample_address : dict :=
  py_dict [ ("name", PStr "Ann Example"); ("address_1", PStr "1 Main St");
            ("city", PStr "Springfield") ].

Definition sample_address_abroad : dict :=
  py_dict [ ("name", PStr "Ann Example"); ("address_1", PStr "1 Main St");
            ("city", PStr "Leeds"); ("country", PStr "GB") ].

(** A request whose parameter mapping holds [Action] and [NextToken] and
    no other key. *)
Definition token_only_request (action token : string) (r : Request) : Prop :=
  parameters r !! "Action" = Some (PStr action)
  ∧ parameters r !! "NextToken" = Some (PStr token)
  ∧ ∀ k, is_Some (parameters r !! k) → k = "Action" ∨ k = "NextToken".

(** An implementation of the collaborators to run the list methods on:
    [enumerate_param] numbers the values from 1 after the prefix, dates are
    taken as already formatted, continuation requests are posted. *)
Definition sample_collaborators : Collaborators := {|
  enumerate_param prefix values :=
    py_dict (imap (λ i v, (prefix +:+ pretty (S i), v)) values);
  enumerate_params lists :=
    foldl (λ m pl,
             dict_update m
               (py_dict (imap (λ i v, (pl.1 +:+ pretty (S i), v))
                           (default [] pl.2))))
      ∅ lists;
  dt_iso_or_none v := v;
  next_token_method := Some "POST";
|}.

(** The three keys an address must have. *)
Definition has_address_keys (a : dict) : Prop :=
  is_Some (a !! "name") ∧ is_Some (a !! "address_1") ∧ is_Some (a !! "city").

(** The client state that a successful [set_ship_from_address] leaves. *)
Definition address_stored (self : InboundShipments.client) : Prop :=
  ∃ a, has_address_keys a
       ∧ self = InboundShipments.Client
                  (Some (InboundShipments.parsed_address a)).

(** [s.startswith(prefix)] *)
Definition startswith (s prefix : string) : bool := String.prefix prefix s.

(** A non-empty list of item dictionaries that all have the required keys
    (the same two for every operation). *)
Definition valid_items (items : option (list pyobj)) (ds : list dict)
    : Prop :=
  items = Some (PDict <$> ds)
  ∧ ds ≠ []
  ∧ Forall (λ d, is_Some (d !! "sku") ∧ is_Some (d !! "quantity")) ds.

(** An argument of the create and update methods that is not a [str]. *)
Definition some_not_text (shipment_id shipment_name destination : pyval)
    : Prop :=
  isinstance_str shipment_id = false
  ∨ isinstance_str shipment_name = false
  ∨ isinstance_str destination = false.

(** The value a request carries for a field.  A key bound to [None] carries
    none: the methods bind a key to [None] to "remove it from this request"
    (absent key == field not sent). *)
Definition field_value (r : Request) (k : string) : option pyval :=
  match parameters r !! k with
  | Some PNone => None
  | v => v
  end.

(** ** Key sets and messages of the two parsers *)

(** The keys that [parse_item_args] reads from an item. *)
Definition item_read_keys (operation : string) : list string :=
  if String.eqb operation "CreateInboundShipmentPlan"
  then [ "sku"; "quantity"; "quantity_in_case"; "asin"; "condition" ]
  else [ "sku"; "quantity"; "quantity_in_case" ].

(** The keys of an output dictionary of [parse_item_args]. *)
Definition item_output_keys (operation : string) : list string :=
  if String.eqb operation "CreateInboundShipmentPlan"
  then [ "SellerSKU"; "Quantity"; "QuantityInCase"; "ASIN"; "Condition" ]
  else [ "SellerSKU"; "QuantityShipped"; "QuantityInCase" ].

(** The text of the error for an item without [sku] or [quantity]. *)
Definition item_missing_keys_text (operation : string) : string :=
  if String.eqb operation "CreateInboundShipmentPlan"
  then "`item` dict missing required keys: sku, quantity." +:+ newline
         +:+ "- Optional keys: quantity_in_case, asin, condition."
  else "`item` dict missing required keys: sku, quantity." +:+ newline
         +:+ "- Optional keys: quantity_in_case.".

(** The keys of a stored ship-from address. *)
Definition address_output_keys : list string :=
  [ "ShipFromAddress.Name"; "ShipFromAddress.AddressLine1";
    "ShipFromAddress.AddressLine2"; "ShipFromAddress.City";
    "ShipFromAddress.DistrictOrCounty";
    "ShipFromAddress.StateOrProvinceCode"; "ShipFromAddress.PostalCode";
    "ShipFromAddress.CountryCode" ].

(** The keys of the dictionary literal of the create and update methods. *)
Definition shipment_header_keys : list string :=
  [ "Action"; "ShipmentId"; "InboundShipmentHeader.ShipmentName";
    "InboundShipmentHeader.DestinationFulfillmentCenterId";
    "InboundShipmentHeader.LabelPrepPreference";
    "InboundShipmentHeader.AreCasesRequired";
    "InboundShipmentHeader.ShipmentStatus";
    "InboundShipmentHeader.IntendedBoxContentsSource" ].

(** Two dictionaries that bind the keys of [keys] alike. *)
Definition agree_on (keys : list string) (d d' : dict) : Prop :=
  ∀ k, k ∈ keys → d !! k = d' !! k.

(** The two required keys of an item. *)
Definition has_item_keys (d : dict) : Prop :=
  is_Some (d !! "sku") ∧ is_Some (d !! "quantity").

(** An address argument that [set_ship_from_address] accepts. *)
Definition acceptable_address (address : pyobj) : Prop :=
  ∃ a, address = PDict a ∧ has_address_keys a.

(** The helper [enumerate_param] binds only keys that start with the prefix
    it is given. *)
Definition enumerates_under_prefix `{Collaborators} : Prop :=
  ∀ prefix values k,
    is_Some (enumerate_param prefix values !! k) →
    startswith k prefix = true.

(** An item without the optional keys whose quantity is bound to [None]. *)
Definition sample_item_none_quantity : dict :=
  py_dict [ ("sku", PStr "SKU-3"); ("quantity", PNone) ].

(** An item with a key that the parser does not know. *)
Definition sample_item_noted : dict :=
  py_dict [ ("sku", PStr "SKU-1"); ("quantity", PInt 3);
            ("note", PStr "fragile") ].

(** * Properties *)

(** ** Decimal indices and enumerated names *)

Lemma pretty_N_char_digit x : is_digit (pretty_N_char x) = true.
Proof. unfold pretty_N_char. by repeat case_match. Qed.

Lemma pretty_N_go_digits x s :
  all_digits s = true → all_digits (pretty_N_go x s) = true.
Proof.
  revert s. induction (N.lt_wf_0 x) as [x _ IH]; intros s Hs.
  assert (x = 0 ∨ 0 < x)%N as [->|Hpos] by lia.
  - by rewrite pretty_N_go_0.
  - rewrite pretty_N_go_step by done. apply IH.
    + by apply N.div_lt.
    + simpl. by rewrite pretty_N_char_digit, Hs.
Qed.

Lemma pretty_nat_digits (n : nat) : all_digits (pretty n) = true.
Proof.
  unfold pretty, pretty_nat, pretty, pretty_N.
  case_decide; [done|]. by apply pretty_N_go_digits.
Qed.

(** Two decimal numbers followed by a dot and a rest agree only if the
    numbers and the rests do. *)
Lemma digits_dot_inj s1 s2 f g :
  all_digits s1 = true → all_digits s2 = true →
  s1 +:+ "." +:+ f = s2 +:+ "." +:+ g → s1 = s2 ∧ f = g.
Proof.
  revert s2. induction s1 as [|c s1 IH]; intros [|c' s2] H1 H2 Heq;
    simpl in *.
  - by simplify_eq.
  - injection Heq as <- _. by apply andb_prop in H2 as [? _].
  - injection Heq as -> _. by apply andb_prop in H1 as [? _].
  - injection Heq as -> Heq.
    apply andb_prop in H1 as [_ H1]. apply andb_prop in H2 as [_ H2].
    destruct (IH s2 H1 H2 Heq) as [-> ->]. done.
Qed.

Lemma keyed_name_inj prefix n m f g :
  utils.keyed_name prefix n f = utils.keyed_name prefix m g → n = m ∧ f = g.
Proof.
  unfold utils.keyed_name. intros Heq.
  apply (inj (String.append prefix)) in Heq.
  change ("." +:+ ?a) with (String "."%char a) in Heq.
  injection Heq as Heq.
  apply digits_dot_inj in Heq as [Hn ->]; [|apply pretty_nat_digits..].
  by apply (inj pretty) in Hn.
Qed.

#[global] Instance keyed_name_field_inj prefix n :
  Inj (=) (=) (utils.keyed_name prefix n).
Proof. intros f g Heq. by apply keyed_name_inj in Heq as [_ ?]. Qed.

(** Every entry of an enumerated block carries an index from [n] on, and the
    entry of index [n + i] and field [f] is the field [f] of the [i]-th
    dictionary. *)
Lemma enumerate_keyed_from_Some prefix n values k v :
  utils.enumerate_keyed_from prefix n values !! k = Some v →
  ∃ i d f, values !! i = Some d ∧ d !! f = Some v
           ∧ k = utils.keyed_name prefix (n + i) f.
Proof.
  revert n. induction values as [|d rest IH]; intros n; simpl.
  - by rewrite lookup_empty.
  - unfold dict_update. rewrite lookup_union_Some_raw.
    intros [Hrest | [_ Hd]].
    + apply IH in Hrest as (i & d' & f & ? & ? & ->).
      exists (S i), d', f. split_and!; [done..|]. f_equal. lia.
    + apply lookup_kmap_Some in Hd as (f & -> & ?); [|apply _].
      exists 0, d, f. split_and!; [done..|]. f_equal. lia.
Qed.

Lemma enumerate_keyed_from_lookup prefix n values i f :
  utils.enumerate_keyed_from prefix n values
    !! utils.keyed_name prefix (n + i) f
  = d ← values !! i; d !! f.
Proof.
  revert n i. induction values as [|d rest IH]; intros n i; simpl.
  - by rewrite lookup_empty.
  - unfold dict_update. destruct i as [|i]; simpl.
    + rewrite Nat.add_0_r.
      destruct (utils.enumerate_keyed_from prefix (S n) rest
                  !! utils.keyed_name prefix n f) as [v|] eqn:Hrest.
      { apply enumerate_keyed_from_Some in Hrest as (j & _ & g & _ & _ & Hk).
        apply keyed_name_inj in Hk as [? _]. lia. }
      rewrite lookup_union_r by done. apply lookup_kmap, _.
    + replace (n + S i) with (S n + i) by lia.
      rewrite lookup_union_l; [apply IH|].
      apply lookup_kmap_None; [apply _|].
      intros g Hk. apply keyed_name_inj in Hk as [? _]. lia.
Qed.


(** ** Dictionaries built from entry lists *)

Lemma py_dict_snoc entries k v :
  py_dict (entries ++ [(k, v)]) = <[k := v]> (py_dict entries).
Proof. unfold py_dict. by rewrite foldl_app. Qed.

Lemma py_dict_lookup_Some entries k v :
  py_dict entries !! k = Some v → (k, v) ∈ entries.
Proof.
  induction entries as [|[k' v'] entries IH] using rev_ind.
  - unfold py_dict; simpl. by rewrite lookup_empty.
  - rewrite py_dict_snoc, lookup_insert_Some, elem_of_app, list_elem_of_singleton.
    intros [[-> ->] | [_ Hin]]; auto.
Qed.

Lemma py_dict_lookup_None entries k :
  k ∉ entries.*1 → py_dict entries !! k = None.
Proof.
  intros Hk. destruct (py_dict entries !! k) as [v|] eqn:Hv; [|done].
  apply py_dict_lookup_Some in Hv. destruct Hk.
  apply list_elem_of_fmap. by exists (k, v).
Qed.

(** ** The item parser *)

Ltac item_dict_lookup :=
  unfold item_dict, item_key_config, quantity_key; simpl;
  try match goal with |- context [String.eqb ?op _] =>
        destruct (String.eqb op _) end;
  simpl; unfold dict_update, py_dict; simpl;
  rewrite lookup_union; by simplify_map_eq.

Lemma item_dict_sku op item :
  item_dict op item !! "SellerSKU" = Some (dict_get item "sku" PNone).
Proof. item_dict_lookup. Qed.

Lemma item_dict_quantity op item :
  item_dict op item !! quantity_key op
  = Some (str_or_none (dict_get item "quantity" PNone)).
Proof. item_dict_lookup. Qed.

Lemma item_dict_quantity_in_case op item :
  item_dict op item !! "QuantityInCase"
  = Some (str_or_none (dict_get item "quantity_in_case" PNone)).
Proof. item_dict_lookup. Qed.

Lemma item_dict_asin item :
  item_dict "CreateInboundShipmentPlan" item !! "ASIN"
  = Some (dict_get item "asin" PNone).
Proof. item_dict_lookup. Qed.

Lemma item_dict_condition item :
  item_dict "CreateInboundShipmentPlan" item !! "Condition"
  = Some (dict_get item "condition" PNone).
Proof. item_dict_lookup. Qed.

(** The required keys of both schemas are [sku] and [quantity]. *)
Lemma has_required_item op d :
  has_required d (item_key_config op) = true
  ↔ is_Some (d !! "sku") ∧ is_Some (d !! "quantity").
Proof.
  unfold has_required, item_key_config, dict_has.
  destruct (String.eqb op _); simpl;
    rewrite !andb_true_iff, !bool_decide_eq_true; tauto.
Qed.

Lemma parse_item_loop_ok op acc ds :
  Forall (λ d, has_required d (item_key_config op) = true) ds →
  parse_item_loop op acc (PDict <$> ds)
  = Return (acc ++ (item_dict op <$> ds)).
Proof.
  intros Hds. revert acc.
  induction Hds as [|d ds Hd _ IH]; intros acc; simpl.
  - by rewrite app_nil_r.
  - rewrite Hd, IH. by rewrite <-app_assoc.
Qed.

Lemma parse_item_loop_inv op acc item_args out :
  parse_item_loop op acc item_args = Return out →
  ∃ ds, well_formed_items op item_args ds
        ∧ out = acc ++ (item_dict op <$> ds).
Proof.
  revert acc. induction item_args as [|[v|d] rest IH]; intros acc; simpl.
  - intros [= <-]. exists []. by rewrite app_nil_r.
  - done.
  - destruct (has_required d _) eqn:Hd; [|done].
    intros (ds & [-> Hds] & ->)%IH. exists (d :: ds).
    split; [split; [done|by constructor]|].
    simpl. by rewrite <-app_assoc.
Qed.

Lemma parse_item_args_cons op o items :
  parse_item_args (Some (o :: items)) op
  = parse_item_loop op [] (o :: items).
Proof. reflexivity. Qed.

Lemma parse_item_args_ok op d ds :
  Forall (λ d, has_required d (item_key_config op) = true) (d :: ds) →
  parse_item_args (Some (PDict <$> d :: ds)) op
  = Return (item_dict op <$> d :: ds).
Proof.
  intros Hds. rewrite fmap_cons, parse_item_args_cons, <-fmap_cons.
  by rewrite parse_item_loop_ok.
Qed.

Lemma parse_item_args_inv op item_args out :
  parse_item_args item_args op = Return out →
  ∃ items ds, item_args = Some items ∧ items ≠ []
              ∧ well_formed_items op items ds
              ∧ out = item_dict op <$> ds.
Proof.
  destruct item_args as [[|o items]|]; try done.
  rewrite parse_item_args_cons.
  intros (ds & Hwf & ->)%parse_item_loop_inv.
  exists (o :: items), ds. by split_and!.
Qed.

Lemma quantity_key_cases op key :
  (op = "CreateInboundShipmentPlan" ∧ key = "Quantity")
  ∨ (op ≠ "CreateInboundShipmentPlan" ∧ key = "QuantityShipped") →
  key = quantity_key op.
Proof.
  unfold quantity_key. intros [[-> ->]|[Hop ->]]; [done|].
  apply String.eqb_neq in Hop. by rewrite Hop.
Qed.

(** C6: for a non-empty list of item dictionaries that all have [sku] and
    [quantity], the parser returns one output dictionary per item, in the
    order of the input (the [i]-th output is built from the [i]-th item and
    carries its SKU), and every output holds the item's quantity under
    [Quantity] for the plan-creation schema and under [QuantityShipped] for
    every other operation: an integer as its decimal numeral, a text as it
    is, a boolean as [True] or [False], and [None] as [None]. *)
Theorem parse_item_args_length_order_quantity (op : string)
    (ds : list dict) :
  ds ≠ [] →
  Forall (λ d, is_Some (d !! "sku") ∧ is_Some (d !! "quantity")) ds →
  ∃ out,
    parse_item_args (Some (PDict <$> ds)) op = Return out
    ∧ length out = length ds
    ∧ ∀ i d, ds !! i = Some d →
        ∃ o, out !! i = Some o
             ∧ o !! "SellerSKU" = d !! "sku"
             ∧ ∀ key,
                 (op = "CreateInboundShipmentPlan" ∧ key = "Quantity")
                 ∨ (op ≠ "CreateInboundShipmentPlan"
                    ∧ key = "QuantityShipped") →
                 (∀ z, d !! "quantity" = Some (PInt z) →
                    o !! key = Some (PStr (pretty z)))
                 ∧ (∀ s, d !! "quantity" = Some (PStr s) →
                      o !! key = Some (PStr s))
                 ∧ (∀ b, d !! "quantity" = Some (PBool b) →
                      o !! key
                      = Some (PStr (if b then "True" else "False")))
                 ∧ (d !! "quantity" = Some PNone →
                      o !! key = Some PNone).
Proof.
  intros Hne Hds. exists (item_dict op <$> ds).
  destruct ds as [|d0 ds0]; [done|]. split_and!.
  - apply parse_item_args_ok.
    eapply Forall_impl; [done|]. intros d ?. by apply has_required_item.
  - by rewrite length_fmap.
  - intros i d Hi. exists (item_dict op d). split_and!.
    + by rewrite list_lookup_fmap, Hi.
    + rewrite item_dict_sku. unfold dict_get.
      rewrite Forall_lookup in Hds. by destruct (Hds i d Hi) as [[? ->] _].
    + intros key ->%quantity_key_cases.
      rewrite item_dict_quantity. unfold dict_get.
      split_and!; [intros z ->|intros s ->|intros b ->|intros ->]; done.
Qed.

Lemma parse_item_args_length_order_quantity_witness :
  ∃ out,
    parse_item_args (Some (PDict <$> [sample_item; sample_item_full]))
      "UpdateInboundShipment" = Return out
    ∧ length out = 2
    ∧ ∀ i d, [sample_item; sample_item_full] !! i = Some d →
        ∃ o, out !! i = Some o
             ∧ o !! "SellerSKU" = d !! "sku"
             ∧ ∀ key,
                 ("UpdateInboundShipment" = "CreateInboundShipmentPlan"
                  ∧ key = "Quantity")
                 ∨ ("UpdateInboundShipment" ≠ "CreateInboundShipmentPlan"
                    ∧ key = "QuantityShipped") →
                 (∀ z, d !! "quantity" = Some (PInt z) →
                    o !! key = Some (PStr (pretty z)))
                 ∧ (∀ s, d !! "quantity" = Some (PStr s) →
                      o !! key = Some (PStr s))
                 ∧ (∀ b, d !! "quantity" = Some (PBool b) →
                      o !! key
                      = Some (PStr (if b then "True" else "False")))
                 ∧ (d !! "quantity" = Some PNone →
                      o !! key = Some PNone).
Proof.
  apply (parse_item_args_length_order_quantity "UpdateInboundShipment"
           [sample_item; sample_item_full]).
  - discriminate.
  - repeat (apply Forall_cons_2;
            [split; (eexists; vm_compute; reflexivity)|]).
    apply Forall_nil_2.
Defined.

(** C3, as stated, fails on an item with neither [asin] nor [condition]: the
    output dictionary has the keys [ASIN] and [Condition], bound to [None],
    instead of lacking them. *)
Lemma plan_item_without_asin_keeps_key :
  sample_item !! "asin" = None
  ∧ sample_item !! "condition" = None
  ∧ parse_item_args (Some [PDict sample_item]) "CreateInboundShipmentPlan"
    = Return [sample_item_parsed]
  ∧ sample_item_parsed !! "ASIN" = Some PNone
  ∧ sample_item_parsed !! "Condition" = Some PNone
  ∧ sample_item_parsed !! "ASIN" ≠ None.
Proof. split_and!; by vm_compute. Qed.

(** C3, amended: whatever the plan-creation parser returns has one output
    dictionary per item, and in each of them the keys [ASIN], [Condition] and
    [QuantityInCase] are all present: [ASIN] (resp. [Condition]) is bound to
    the item's [asin] (resp. [condition]) value unchanged when the item has
    one and to [None] when it has none, like [QuantityInCase]. *)
Theorem plan_items_asin_condition (item_args : option (list pyobj))
    (out : list dict) :
  parse_item_args item_args "CreateInboundShipmentPlan" = Return out →
  ∃ ds,
    item_args = Some (PDict <$> ds)
    ∧ length out = length ds
    ∧ ∀ i d, ds !! i = Some d →
        ∃ o, out !! i = Some o
             ∧ (∀ v, d !! "asin" = Some v → o !! "ASIN" = Some v)
             ∧ (d !! "asin" = None → o !! "ASIN" = Some PNone)
             ∧ (∀ v, d !! "condition" = Some v → o !! "Condition" = Some v)
             ∧ (d !! "condition" = None → o !! "Condition" = Some PNone)
             ∧ is_Some (o !! "QuantityInCase").
Proof.
  intros (items & ds & -> & _ & [-> _] & ->)%parse_item_args_inv.
  exists ds. split_and!; [done|by rewrite length_fmap|].
  intros i d Hi. exists (item_dict "CreateInboundShipmentPlan" d).
  rewrite list_lookup_fmap, Hi, item_dict_asin, item_dict_condition,
    item_dict_quantity_in_case.
  unfold dict_get. split_and!; [done|..|by eexists];
    try (by intros v ->); by intros ->.
Qed.

Lemma plan_items_asin_condition_witness :
  ∃ ds,
    Some [PDict sample_item; PDict sample_item_full] = Some (PDict <$> ds)
    ∧ length [sample_item_parsed;
              item_dict "CreateInboundShipmentPlan" sample_item_full]
      = length ds
    ∧ ∀ i d, ds !! i = Some d →
        ∃ o, [sample_item_parsed;
              item_dict "CreateInboundShipmentPlan" sample_item_full] !! i
             = Some o
             ∧ (∀ v, d !! "asin" = Some v → o !! "ASIN" = Some v)
             ∧ (d !! "asin" = None → o !! "ASIN" = Some PNone)
             ∧ (∀ v, d !! "condition" = Some v → o !! "Condition" = Some v)
             ∧ (d !! "condition" = None → o !! "Condition" = Some PNone)
             ∧ is_Some (o !! "QuantityInCase").
Proof.
  apply (plan_items_asin_condition
           (Some [PDict sample_item; PDict sample_item_full])).
  vm_compute. reflexivity.
Defined.

(** ** Continuation by token *)

Lemma action_by_next_token_declared `{Collaborators} declared name token :
  name ∈ declared →
  ∃ r, decorators.action_by_next_token declared name (PStr token) = Return r
       ∧ token_only_request (name +:+ "ByNextToken") token r.
Proof.
  intros Hin. unfold decorators.action_by_next_token.
  rewrite bool_decide_eq_true_2 by done. eexists. split; [reflexivity|].
  unfold token_only_request, py_dict; simpl. split_and!.
  - by rewrite lookup_insert_ne, lookup_insert_eq.
  - by rewrite lookup_insert_eq.
  - intros k [v Hk].
    apply lookup_insert_Some in Hk as [[<- _]|[_ Hk]]; [by right|].
    apply lookup_insert_Some in Hk as [[<- _]|[_ Hk]]; [by left|].
    by rewrite lookup_empty in Hk.
Qed.

Lemma action_by_next_token_undeclared `{Collaborators} declared name token :
  name ∉ declared →
  decorators.action_by_next_token declared name token
  = Raise (MWSError (decorators.not_listed_message name)).
Proof.
  intros Hout. unfold decorators.action_by_next_token.
  by rewrite bool_decide_eq_false_2 by done.
Qed.

Lemma next_token_action_token `{Collaborators} {Args : Type} declared name
    (request_func : Args → result Request) token args :
  decorators.next_token_action declared name request_func (PStr token) args
  = decorators.action_by_next_token declared name (PStr token).
Proof. reflexivity. Qed.

(** C1: called with a text [next_token], each of the three decorated methods
    whose action the class declares in its [NEXT_TOKEN_OPERATIONS]
    ([list_inbound_shipments], [list_inbound_shipment_items],
    [get_report_request_list]) hands over a request whose parameter mapping
    holds [Action=<OperationName>ByNextToken] and [NextToken=<token>] and no
    other key, whatever the other arguments of the call are; the fourth,
    [get_report_list], hands over no request: its action [GetReportList] is
    not among the declared operations of [Reports], and the call raises an
    [MWSError]. *)
Theorem next_token_declared_only `{Collaborators} (token : string) :
  (∀ shipment_ids shipment_statuses last_updated_after last_updated_before,
     ∃ r, InboundShipments.list_inbound_shipments (PStr token) shipment_ids
            shipment_statuses last_updated_after last_updated_before
          = Return r
          ∧ token_only_request "ListInboundShipmentsByNextToken" token r)
  ∧ (∀ shipment_id last_updated_after last_updated_before,
       ∃ r, InboundShipments.list_inbound_shipment_items (PStr token)
              shipment_id last_updated_after last_updated_before
            = Return r
            ∧ token_only_request "ListInboundShipmentItemsByNextToken"
                token r)
  ∧ (∀ requestids types processingstatuses max_count fromdate todate,
       ∃ r, Reports.get_report_request_list (PStr token) requestids types
              processingstatuses max_count fromdate todate
            = Return r
            ∧ token_only_request "GetReportRequestListByNextToken" token r)
  ∧ (∀ requestids max_count types acknowledged fromdate todate,
       is_mws_error
         (Reports.get_report_list (PStr token) requestids max_count types
            acknowledged fromdate todate)
       ∧ ∀ r, Reports.get_report_list (PStr token) requestids max_count
                types acknowledged fromdate todate ≠ Return r).
Proof.
  split_and!; intros.
  - apply (action_by_next_token_declared _ "ListInboundShipments").
    apply list_elem_of_In; vm_compute; tauto.
  - apply (action_by_next_token_declared _ "ListInboundShipmentItems").
    apply list_elem_of_In; vm_compute; tauto.
  - apply (action_by_next_token_declared _ "GetReportRequestList").
    apply list_elem_of_In; vm_compute; tauto.
  - unfold Reports.get_report_list.
    rewrite next_token_action_token, action_by_next_token_undeclared.
    + split; [by eexists|done].
    + intros Hin%list_elem_of_In. vm_compute in Hin.
      intuition discriminate.
Qed.

(** ** The ship-from address *)

Import InboundShipments.

Lemma has_required_address a :
  has_required a address_key_config = true ↔ has_address_keys a.
Proof.
  unfold has_required, has_address_keys, dict_has; simpl.
  rewrite !andb_true_iff, !bool_decide_eq_true. tauto.
Qed.

Lemma address_message :
  missing_keys_message "address" address_key_config
  = "`address` dict missing required keys: name, address_1, city."
      +:+ newline
      +:+ "- Optional keys: address_2, district_or_county, "
      +:+ "state_or_province, postal_code, country.".
Proof. reflexivity. Qed.

Lemma dict_truthy_nonempty (d : dict) k :
  is_Some (d !! k) → dict_truthy d = true.
Proof.
  intros [v Hk]. unfold dict_truthy.
  rewrite bool_decide_eq_false_2; [done|].
  intros ->. by rewrite lookup_empty in Hk.
Qed.

Lemma dict_truthy_true (d : dict) : dict_truthy d = true ↔ d ≠ ∅.
Proof.
  unfold dict_truthy. rewrite negb_true_iff, bool_decide_eq_false. done.
Qed.

Ltac parsed_address_lookup :=
  unfold parsed_address, py_dict; simpl; by simplify_map_eq.

Lemma parsed_address_country a :
  parsed_address a !! "ShipFromAddress.CountryCode"
  = Some (dict_get a "country" (PStr "US")).
Proof. parsed_address_lookup. Qed.

Lemma parsed_address_name a :
  parsed_address a !! "ShipFromAddress.Name"
  = Some (dict_get a "name" PNone).
Proof. parsed_address_lookup. Qed.

Lemma parsed_address_truthy a : dict_truthy (parsed_address a) = true.
Proof.
  apply (dict_truthy_nonempty _ "ShipFromAddress.Name").
  rewrite parsed_address_name. by eexists.
Qed.

(** Every key of a stored address starts with [ShipFromAddress.]. *)
Lemma parsed_address_keys a k v :
  parsed_address a !! k = Some v → ∃ f, k = "ShipFromAddress." +:+ f.
Proof.
  intros Hk%py_dict_lookup_Some. simpl in Hk.
  repeat (apply elem_of_cons in Hk as [[= -> _]|Hk]; [by eexists|]).
  by apply elem_of_nil in Hk.
Qed.

Lemma set_ship_from_address_ok self a :
  has_address_keys a →
  set_ship_from_address self (PDict a)
  = (Client (Some (parsed_address a)), Return None).
Proof.
  intros Ha. unfold set_ship_from_address; simpl.
  rewrite (dict_truthy_nonempty a "name") by apply Ha.
  apply has_required_address in Ha. by rewrite Ha.
Qed.

Lemma set_ship_from_address_missing self a :
  a ≠ ∅ → ¬ has_address_keys a →
  set_ship_from_address self (PDict a)
  = (Client None,
     Raise (MWSError (missing_keys_message "address" address_key_config))).
Proof.
  intros Hne Ha. unfold set_ship_from_address; simpl.
  apply dict_truthy_true in Hne. rewrite Hne; simpl.
  rewrite <-has_required_address in Ha.
  apply not_true_is_false in Ha. by rewrite Ha.
Qed.

Lemma set_ship_from_address_inv self address self' r :
  set_ship_from_address self address = (self', Return r) →
  r = None ∧ address_stored self'.
Proof.
  unfold set_ship_from_address.
  destruct (obj_truthy address); simpl; [|done].
  destruct address as [v|a]; [done|].
  destruct (has_required a _) eqn:Ha; simpl; [|done].
  intros [= <- <-]. split; [done|].
  exists a. by rewrite <-has_required_address.
Qed.

Lemma address_stored_is_set self :
  address_stored self → address_is_set self = true.
Proof. intros (a & _ & ->). apply parsed_address_truthy. Qed.

(** C7, as stated, fails on the empty mapping: it lacks the required keys,
    but the setter rejects it one check earlier, with a message that names no
    key. *)
Lemma empty_address_message_names_no_key :
  (∅ : dict) !! "name" = None
  ∧ set_ship_from_address (Client None) (PDict ∅)
    = (Client None, Raise (MWSError "Missing required `address` dict."))
  ∧ "Missing required `address` dict."
    ≠ missing_keys_message "address" address_key_config.
Proof. split_and!; by vm_compute. Qed.

(** C7, amended: the setter fails for every _non-empty_ address mapping
    that lacks [name], [address_1] or [city], with the message that lists the
    required and the optional keys (the empty mapping fails too, with the
    message of the emptiness check); for every address with the three keys it
    succeeds and stores a mapping whose [ShipFromAddress.CountryCode] is
    ["US"] when [country] is omitted and the supplied value when it is
    given. *)
Theorem set_ship_from_address_contract (self : client) (a : dict) :
  (a ≠ ∅ →
   a !! "name" = None ∨ a !! "address_1" = None ∨ a !! "city" = None →
   (set_ship_from_address self (PDict a)).2
   = Raise (MWSError
       ("`address` dict missing required keys: name, address_1, city."
          +:+ newline
          +:+ "- Optional keys: address_2, district_or_county, "
          +:+ "state_or_province, postal_code, country.")))
  ∧ (a = ∅ →
     (set_ship_from_address self (PDict a)).2
     = Raise (MWSError "Missing required `address` dict."))
  ∧ (has_address_keys a →
     ∃ stored,
       set_ship_from_address self (PDict a)
       = (Client (Some stored), Return None)
       ∧ (a !! "country" = None →
          stored !! "ShipFromAddress.CountryCode" = Some (PStr "US"))
       ∧ (∀ c, a !! "country" = Some c →
          stored !! "ShipFromAddress.CountryCode" = Some c)).
Proof.
  split_and!.
  - intros Hne Hmiss. rewrite set_ship_from_address_missing; [done..|].
    intros (?&?&?). destruct Hmiss as [Hm|[Hm|Hm]];
      rewrite Hm in *; by eapply is_Some_None.
  - by intros ->.
  - intros Ha. exists (parsed_address a).
    rewrite set_ship_from_address_ok, parsed_address_country by done.
    unfold dict_get. split_and!; [done|by intros ->|by intros c ->].
Qed.

Lemma set_ship_from_address_contract_witness :
  (set_ship_from_address (Client None)
     (PDict (py_dict [("name", PStr "Ann Example")]))).2
  = Raise (MWSError
      ("`address` dict missing required keys: name, address_1, city."
         +:+ newline
         +:+ "- Optional keys: address_2, district_or_county, "
         +:+ "state_or_province, postal_code, country."))
  ∧ (∃ stored,
       set_ship_from_address (Client None) (PDict sample_address)
       = (Client (Some stored), Return None)
       ∧ stored !! "ShipFromAddress.CountryCode" = Some (PStr "US"))
  ∧ (∃ stored,
       set_ship_from_address (Client None) (PDict sample_address_abroad)
       = (Client (Some stored), Return None)
       ∧ stored !! "ShipFromAddress.CountryCode" = Some (PStr "GB")).
Proof.
  split_and!.
  - apply (set_ship_from_address_contract (Client None)
             (py_dict [("name", PStr "Ann Example")])).
    + by vm_compute.
    + right; left. by vm_compute.
  - destruct (set_ship_from_address_contract (Client None) sample_address)
      as (_ & _ & Hok).
    destruct Hok as (stored & Hset & Hus & _).
    + repeat split; eexists; vm_compute; reflexivity.
    + exists stored. split; [exact Hset|]. apply Hus. by vm_compute.
  - destruct (set_ship_from_address_contract (Client None)
                sample_address_abroad) as (_ & _ & Hok).
    destruct Hok as (stored & Hset & _ & Hgiven).
    + repeat split; eexists; vm_compute; reflexivity.
    + exists stored. split; [exact Hset|]. apply Hgiven. by vm_compute.
Defined.

(** C10: the setter clears the stored address before it validates its
    argument, so whenever it raises (an empty argument, a non-mapping, or a
    mapping without the required keys) the client is left with no stored
    address, whatever address it held before. *)
Theorem set_ship_from_address_failure_clears (self : client)
    (address : pyobj) :
  (obj_truthy address = false
   ∨ (∃ v, address = PVal v)
   ∨ (∃ a, address = PDict a ∧ ¬ has_address_keys a)) →
  ∃ msg,
    (set_ship_from_address self address).2 = Raise (MWSError msg)
    ∧ from_address (set_ship_from_address self address).1 = None.
Proof.
  unfold set_ship_from_address.
  intros [Hfalsy | [[v ->] | (a & -> & Ha)]].
  - rewrite Hfalsy; simpl. by eexists.
  - destruct (obj_truthy (PVal v)); simpl; by eexists.
  - destruct (obj_truthy (PDict a)); simpl; [|by eexists].
    rewrite <-has_required_address in Ha.
    apply not_true_is_false in Ha. rewrite Ha; simpl. by eexists.
Qed.

Lemma set_ship_from_address_failure_clears_witness :
  is_Some (from_address (set_ship_from_address (Client None)
                           (PDict sample_address)).1)
  ∧ ∃ msg,
      (set_ship_from_address
         (set_ship_from_address (Client None) (PDict sample_address)).1
         (PDict (py_dict [("name", PStr "Ann Example")]))).2
      = Raise (MWSError msg)
      ∧ from_address
          (set_ship_from_address
             (set_ship_from_address (Client None) (PDict sample_address)).1
             (PDict (py_dict [("name", PStr "Ann Example")]))).1
        = None.
Proof.
  split.
  - eexists. vm_compute. reflexivity.
  - apply (set_ship_from_address_failure_clears
             (set_ship_from_address (Client None) (PDict sample_address)).1
             (PDict (py_dict [("name", PStr "Ann Example")]))).
    right; right. eexists. split; [reflexivity|].
    intros (_ & [v Hv] & _). vm_compute in Hv. discriminate.
Defined.

(** ** Shipment creation and update *)

Lemma prefix_app p s : String.prefix p (p +:+ s) = true.
Proof.
  induction p as [|c p IH]; [by destruct s|].
  change (String.prefix (String c p) (String c (p +:+ s)) = true).
  simpl. destruct (ascii_dec c c); [done|congruence].
Qed.

Lemma append_assoc_string (a b c : string) :
  a +:+ (b +:+ c) = (a +:+ b) +:+ c.
Proof.
  induction a as [|x a IH]; [reflexivity|].
  change (String x (a +:+ (b +:+ c)) = String x ((a +:+ b) +:+ c)).
  by rewrite IH.
Qed.

Lemma keyed_name_startswith prefix n f :
  startswith (utils.keyed_name prefix n f) (prefix +:+ ".") = true.
Proof.
  unfold startswith, utils.keyed_name.
  rewrite (append_assoc_string prefix "."). apply prefix_app.
Qed.

Lemma enumerate_keyed_startswith prefix values k :
  is_Some (utils.enumerate_keyed_param prefix values !! k) →
  startswith k (prefix +:+ ".") = true.
Proof.
  intros [v Hk].
  apply enumerate_keyed_from_Some in Hk as (i & d & f & _ & _ & ->).
  apply keyed_name_startswith.
Qed.

Lemma assert_shipment_strings_text id name dest :
  assert_shipment_strings (PStr id) (PStr name) (PStr dest) = Return tt.
Proof. reflexivity. Qed.

Lemma assert_shipment_strings_not_text id name dest :
  some_not_text id name dest →
  is_assertion_error (assert_shipment_strings id name dest).
Proof.
  unfold some_not_text, assert_shipment_strings, py_assert.
  destruct (isinstance_str id), (isinstance_str name),
    (isinstance_str dest); simpl; intros [?|[?|?]];
    try discriminate; by eexists.
Qed.

Lemma valid_items_parse op items ds :
  valid_items items ds →
  seq_truthy items = true
  ∧ parse_item_args items op = Return (item_dict op <$> ds)
  ∧ seq_truthy (Some (item_dict op <$> ds)) = true.
Proof.
  intros (-> & Hne & Hds). destruct ds as [|d ds]; [done|].
  split_and!; [done| |done].
  apply parse_item_args_ok.
  eapply Forall_impl; [done|]. intros ??. by apply has_required_item.
Qed.

Lemma create_inbound_shipment_request self id name dest items ds st lp cr bcs :
  valid_items items ds → address_is_set self = true →
  create_inbound_shipment self (PStr id) (PStr name) (PStr dest) items
    st lp cr bcs
  = Return (make_request
      (dict_update
         (dict_update
            (shipment_header "CreateInboundShipment" (PStr id) (PStr name)
               (PStr dest)
               (if negb (in_strs lp LABEL_PREFERENCES) then PNone else lp)
               (true_or_false cr)
               (if negb (in_strs st SHIPMENT_STATUSES)
                then PStr DEFAULT_SHIP_STATUS else st)
               bcs)
            (header_address (default ∅ (from_address self))))
         (utils.enumerate_keyed_param "InboundShipmentItems.member"
            (item_dict "CreateInboundShipment" <$> ds)))
      (Some "POST")).
Proof.
  intros (Hi & Hp & _)%(valid_items_parse "CreateInboundShipment") Hset.
  unfold create_inbound_shipment.
  rewrite assert_shipment_strings_text, Hi, Hp, Hset. reflexivity.
Qed.

Lemma update_inbound_shipment_request self id name dest items ds st lp cr
    bcs :
  valid_items items ds → address_is_set self = true →
  update_inbound_shipment self (PStr id) (PStr name) (PStr dest) items
    st lp cr bcs
  = Return (make_request
      (dict_update
         (dict_update
            (shipment_header "UpdateInboundShipment" (PStr id) (PStr name)
               (PStr dest)
               (if negb (in_strs lp LABEL_PREFERENCES) then PNone else lp)
               (true_or_false cr)
               (if negb (in_strs st SHIPMENT_STATUSES) then PNone else st)
               bcs)
            (header_address (default ∅ (from_address self))))
         (utils.enumerate_keyed_param "InboundShipmentItems.member"
            (item_dict "UpdateInboundShipment" <$> ds)))
      (Some "POST")).
Proof.
  intros (Hi & Hp & Hi')%(valid_items_parse "UpdateInboundShipment") Hset.
  unfold update_inbound_shipment.
  rewrite assert_shipment_strings_text, Hi, Hp, Hset.
  by destruct ds.
Qed.

Lemma update_inbound_shipment_no_items self id name dest items st lp cr
    bcs :
  seq_truthy items = false → address_is_set self = true →
  update_inbound_shipment self (PStr id) (PStr name) (PStr dest) items
    st lp cr bcs
  = Return (make_request
      (dict_update
         (shipment_header "UpdateInboundShipment" (PStr id) (PStr name)
            (PStr dest)
            (if negb (in_strs lp LABEL_PREFERENCES) then PNone else lp)
            (true_or_false cr)
            (if negb (in_strs st SHIPMENT_STATUSES) then PNone else st)
            bcs)
         (header_address (default ∅ (from_address self))))
      (Some "POST")).
Proof.
  intros Hi Hset. unfold update_inbound_shipment.
  rewrite assert_shipment_strings_text, Hi, Hset. reflexivity.
Qed.

Lemma create_inbound_shipment_plan_request self items ds cc sc lp :
  valid_items items ds → address_is_set self = true →
  ∃ r, create_inbound_shipment_plan self items cc sc lp = Return r.
Proof.
  intros (Hi & Hp & _)%(valid_items_parse "CreateInboundShipmentPlan") Hset.
  unfold create_inbound_shipment_plan. rewrite Hi, Hp, Hset. by eexists.
Qed.

(** *** Calls on a client without a stored address *)

Lemma plan_without_address self items cc sc lp :
  address_is_set self = false →
  (∃ e, create_inbound_shipment_plan self items cc sc lp = Raise e)
  ∧ (∀ ds, valid_items items ds →
       create_inbound_shipment_plan self items cc sc lp
       = Raise (MWSError address_not_set_message)).
Proof.
  intros Hset. unfold create_inbound_shipment_plan. split.
  - destruct (seq_truthy items); [|by eexists].
    simpl raise_if.
    destruct (parse_item_args items _); [|by eexists].
    rewrite Hset. by eexists.
  - intros ds (Hi & Hp & _)%(valid_items_parse "CreateInboundShipmentPlan").
    by rewrite Hi, Hp, Hset.
Qed.

Lemma create_without_address self id name dest items st lp cr bcs :
  address_is_set self = false →
  (∃ e, create_inbound_shipment self id name dest items st lp cr bcs
        = Raise e)
  ∧ (∀ i n d ds, id = PStr i → name = PStr n → dest = PStr d →
       valid_items items ds →
       create_inbound_shipment self id name dest items st lp cr bcs
       = Raise (MWSError address_not_set_message)).
Proof.
  intros Hset. unfold create_inbound_shipment. split.
  - destruct (assert_shipment_strings id name dest) as [[]|e];
      [|by eexists].
    destruct (seq_truthy items); [|by eexists].
    simpl raise_if.
    destruct (parse_item_args items _); [|by eexists].
    rewrite Hset. by eexists.
  - intros i n d ds -> -> ->
      (Hi & Hp & _)%(valid_items_parse "CreateInboundShipment").
    by rewrite assert_shipment_strings_text, Hi, Hp, Hset.
Qed.

Lemma update_without_address self id name dest items st lp cr bcs :
  address_is_set self = false →
  (∃ e, update_inbound_shipment self id name dest items st lp cr bcs
        = Raise e)
  ∧ (∀ i n d, id = PStr i → name = PStr n → dest = PStr d →
       seq_truthy items = false ∨ (∃ ds, valid_items items ds) →
       update_inbound_shipment self id name dest items st lp cr bcs
       = Raise (MWSError address_not_set_message)).
Proof.
  intros Hset. unfold update_inbound_shipment. split.
  - destruct (assert_shipment_strings id name dest) as [[]|e];
      [|by eexists].
    destruct (seq_truthy items).
    + destruct (parse_item_args items _); [|by eexists].
      simpl mbind. rewrite Hset. by eexists.
    + simpl mbind. rewrite Hset. by eexists.
  - intros i n d -> -> -> [Hi|[ds Hv]].
    + by rewrite assert_shipment_strings_text, Hi, Hset.
    + apply (valid_items_parse "UpdateInboundShipment") in Hv
        as (Hi & Hp & _).
      by rewrite assert_shipment_strings_text, Hi, Hp, Hset.
Qed.

(** C5, as stated, fails: a shipment id that is not text stops
    [create_inbound_shipment] with an [AssertionError], which is not the
    [MWSError] that the module raises for empty item lists, missing keys and
    an unset address. *)
Lemma non_text_shipment_id_is_not_mws_error :
  create_inbound_shipment (Client None) (PInt 7) (PStr "Shipment")
    (PStr "ABE2") (Some [PDict sample_item]) (PStr "") (PStr "")
    (PBool false) PNone
  = Raise (AssertionError "`shipment_id` must be a string.")
  ∧ ¬ is_mws_error
        (create_inbound_shipment (Client None) (PInt 7) (PStr "Shipment")
           (PStr "ABE2") (Some [PDict sample_item]) (PStr "") (PStr "")
           (PBool false) PNone)
  ∧ is_mws_error
      (create_inbound_shipment (Client None) (PStr "FBA1") (PStr "Shipment")
         (PStr "ABE2") (Some []) (PStr "") (PStr "") (PBool false) PNone).
Proof.
  split_and!.
  - reflexivity.
  - intros [msg Hmsg]. discriminate Hmsg.
  - by eexists.
Qed.

(** C5, amended: when [shipment_id], [shipment_name] or [destination] is
    not a text value, [create_inbound_shipment] and [update_inbound_shipment]
    fail with an [AssertionError] (the error of the [assert] statements, not
    the module's [MWSError]), whatever the other arguments and the client
    state are: the assertions come first, so no request is handed over. *)
Theorem non_text_argument_assertion_error (self : client)
    (shipment_id shipment_name destination : pyval)
    (items : option (list pyobj))
    (shipment_status label_preference case_required box_contents_source
     : pyval) :
  some_not_text shipment_id shipment_name destination →
  is_assertion_error
    (create_inbound_shipment self shipment_id shipment_name destination
       items shipment_status label_preference case_required
       box_contents_source)
  ∧ is_assertion_error
      (update_inbound_shipment self shipment_id shipment_name destination
         items shipment_status label_preference case_required
         box_contents_source).
Proof.
  intros [msg Hmsg]%assert_shipment_strings_not_text.
  unfold create_inbound_shipment, update_inbound_shipment.
  rewrite Hmsg. split; by exists msg.
Qed.

Lemma non_text_argument_assertion_error_witness :
  is_assertion_error
    (create_inbound_shipment (Client None) (PStr "FBA1") (PInt 3)
       (PStr "ABE2") (Some [PDict sample_item]) (PStr "WORKING") (PStr "")
       (PBool false) PNone)
  ∧ is_assertion_error
      (update_inbound_shipment (Client None) (PStr "FBA1") (PInt 3)
         (PStr "ABE2") (Some [PDict sample_item]) (PStr "WORKING")
         (PStr "") (PBool false) PNone).
Proof.
  apply (non_text_argument_assertion_error (Client None) (PStr "FBA1")
           (PInt 3) (PStr "ABE2")).
  right; left. reflexivity.
Defined.

(** ** The constructor *)

Lemma init_with_address a base_init :
  has_address_keys a →
  __init__ (PDict a) base_init = (_ ← base_init; Return (Client None)).
Proof.
  intros Ha. unfold __init__.
  rewrite set_ship_from_address_ok by done. reflexivity.
Qed.

(** C4, as stated, fails for a call whose own arguments are rejected first:
    on the client built with a valid [from_address], a plan request without
    items stops at the items check, with another message than the
    address-not-set one. *)
Lemma call_without_items_fails_on_items :
  __init__ (PDict sample_address) (Return tt) = Return (Client None)
  ∧ create_inbound_shipment_plan (Client None) (Some []) (PStr "US")
      (PStr "") (PStr "")
    = Raise (MWSError "One or more `item` dict arguments required.")
  ∧ create_inbound_shipment_plan (Client None) (Some []) (PStr "US")
      (PStr "") (PStr "")
    ≠ Raise (MWSError address_not_set_message).
Proof. split_and!; by vm_compute. Qed.

(** C4, amended: constructing a client with a valid [from_address] keyword
    argument leaves the stored [from_address] equal to [None] (the
    constructor assigns the setter's return value, which is [None]); so every
    later plan, create or update call on that client fails, and it fails with
    the address-not-set error whenever its own arguments pass the checks that
    come before the address check (text identifiers, valid items or, for an
    update, no items); an explicit [set_ship_from_address] with a valid
    address stores the address again. *)
Theorem init_leaves_no_from_address (a : dict) :
  has_address_keys a →
  __init__ (PDict a) (Return tt) = Return (Client None)
  ∧ ∀ base_init self,
      __init__ (PDict a) base_init = Return self →
      from_address self = None
      ∧ (∀ items country_code subdivision_code label_preference,
           (∃ e, create_inbound_shipment_plan self items country_code
                   subdivision_code label_preference = Raise e)
           ∧ (∀ ds, valid_items items ds →
                create_inbound_shipment_plan self items country_code
                  subdivision_code label_preference
                = Raise (MWSError address_not_set_message)))
      ∧ (∀ id name dest items status label case_required box,
           (∃ e, create_inbound_shipment self id name dest items status
                   label case_required box = Raise e)
           ∧ (∀ i n d ds, id = PStr i → name = PStr n → dest = PStr d →
                valid_items items ds →
                create_inbound_shipment self id name dest items status
                  label case_required box
                = Raise (MWSError address_not_set_message)))
      ∧ (∀ id name dest items status label case_required box,
           (∃ e, update_inbound_shipment self id name dest items status
                   label case_required box = Raise e)
           ∧ (∀ i n d, id = PStr i → name = PStr n → dest = PStr d →
                seq_truthy items = false ∨ (∃ ds, valid_items items ds) →
                update_inbound_shipment self id name dest items status
                  label case_required box
                = Raise (MWSError address_not_set_message)))
      ∧ (∀ a', has_address_keys a' →
           address_stored (set_ship_from_address self (PDict a')).1).
Proof.
  intros Ha. split; [by rewrite init_with_address|].
  intros base_init self. rewrite init_with_address by done.
  destruct base_init as [[]|e]; [|done]. intros [= <-].
  split_and!.
  - done.
  - intros. by apply plan_without_address.
  - intros. by apply create_without_address.
  - intros. by apply update_without_address.
  - intros a' Ha'. rewrite set_ship_from_address_ok by done.
    by exists a'.
Qed.

Lemma init_leaves_no_from_address_witness :
  from_address (Client None) = None
  ∧ create_inbound_shipment_plan (Client None)
      (Some (PDict <$> [sample_item])) (PStr "US") (PStr "") (PStr "")
    = Raise (MWSError address_not_set_message)
  ∧ update_inbound_shipment (Client None) (PStr "FBA1") (PStr "Shipment")
      (PStr "ABE2") None (PStr "") (PStr "") (PBool false) PNone
    = Raise (MWSError address_not_set_message).
Proof.
  destruct (init_leaves_no_from_address sample_address) as [Hinit Hcalls].
  - repeat split; eexists; vm_compute; reflexivity.
  - destruct (Hcalls (Return tt) (Client None) Hinit)
      as (Hnone & Hplan & _ & Hupdate & _).
    split_and!.
    + exact Hnone.
    + destruct (Hplan (Some (PDict <$> [sample_item])) (PStr "US")
                  (PStr "") (PStr "")) as [_ Hvalid].
      apply (Hvalid [sample_item]).
      split_and!; [reflexivity|discriminate|].
      apply Forall_cons_2; [|apply Forall_nil_2].
      split; eexists; vm_compute; reflexivity.
    + destruct (Hupdate (PStr "FBA1") (PStr "Shipment") (PStr "ABE2") None
                  (PStr "") (PStr "") (PBool false) PNone) as [_ Hvalid].
      apply (Hvalid "FBA1" "Shipment" "ABE2"); [reflexivity..|].
      left. reflexivity.
Defined.

(** ** The shipment status of create and update *)

Lemma in_strs_not_elem (v : pyval) (l : list string) :
  v ∉ PStr <$> l → in_strs v l = false.
Proof.
  intros Hv. destruct v as [| | |s]; try done. simpl.
  apply bool_decide_eq_false. intros Hs. apply Hv.
  apply list_elem_of_fmap. by exists s.
Qed.

Lemma shipment_header_status action id name dest lp cr st bcs :
  shipment_header action id name dest lp cr st bcs
    !! "InboundShipmentHeader.ShipmentStatus" = Some st.
Proof. unfold shipment_header, py_dict; simpl. by simplify_map_eq. Qed.

Lemma header_address_lookup (fa : dict) k :
  header_address fa !! ("InboundShipmentHeader." +:+ k) = fa !! k.
Proof. unfold header_address. apply lookup_kmap, _. Qed.

Lemma stored_address_no_status a :
  header_address (parsed_address a)
    !! "InboundShipmentHeader.ShipmentStatus" = None.
Proof.
  change "InboundShipmentHeader.ShipmentStatus"
    with ("InboundShipmentHeader." +:+ "ShipmentStatus").
  rewrite header_address_lookup.
  destruct (parsed_address a !! "ShipmentStatus") as [v|] eqn:Hk; [|done].
  apply parsed_address_keys in Hk as [f Hf].
  cbv [String.append] in Hf. discriminate Hf.
Qed.

Lemma enumerated_items_no_status values :
  utils.enumerate_keyed_param "InboundShipmentItems.member" values
    !! "InboundShipmentHeader.ShipmentStatus" = None.
Proof.
  apply eq_None_not_Some. intros Hk%enumerate_keyed_startswith.
  vm_compute in Hk. discriminate Hk.
Qed.

(** C2: with valid items and an address stored by the setter, an invalid
    [shipment_status] makes [create_inbound_shipment] hand over a request
    whose [InboundShipmentHeader.ShipmentStatus] is ["WORKING"], while
    [update_inbound_shipment] hands over one in which that key is bound to
    [None], so that the field carries no value: it is dropped, not
    defaulted. *)
Theorem invalid_status_defaulted_or_dropped (self : client)
    (shipment_id shipment_name destination : string)
    (items : option (list pyobj)) (ds : list dict)
    (shipment_status label_preference case_required box_contents_source
     : pyval) :
  shipment_status ∉ [PStr "WORKING"; PStr "SHIPPED"; PStr "CANCELLED"] →
  valid_items items ds →
  address_stored self →
  (∃ r, create_inbound_shipment self (PStr shipment_id)
          (PStr shipment_name) (PStr destination) items shipment_status
          label_preference case_required box_contents_source = Return r
        ∧ parameters r !! "InboundShipmentHeader.ShipmentStatus"
          = Some (PStr "WORKING")
        ∧ field_value r "InboundShipmentHeader.ShipmentStatus"
          = Some (PStr "WORKING"))
  ∧ (∃ r, update_inbound_shipment self (PStr shipment_id)
            (PStr shipment_name) (PStr destination) items shipment_status
            label_preference case_required box_contents_source = Return r
          ∧ parameters r !! "InboundShipmentHeader.ShipmentStatus"
            = Some PNone
          ∧ field_value r "InboundShipmentHeader.ShipmentStatus" = None).
Proof.
  intros Hst%(in_strs_not_elem _ SHIPMENT_STATUSES) Hitems Hstored.
  pose proof (address_stored_is_set _ Hstored) as Hset.
  destruct Hstored as (a & _ & ->).
  split; eexists.
  - rewrite (create_inbound_shipment_request _ _ _ _ _ ds) by done.
    split; [reflexivity|]. unfold field_value. simpl parameters.
    unfold dict_update.
    rewrite lookup_union_r by apply enumerated_items_no_status.
    rewrite lookup_union_r by apply stored_address_no_status.
    by rewrite shipment_header_status, Hst.
  - rewrite (update_inbound_shipment_request _ _ _ _ _ ds) by done.
    split; [reflexivity|]. unfold field_value. simpl parameters.
    unfold dict_update.
    rewrite lookup_union_r by apply enumerated_items_no_status.
    rewrite lookup_union_r by apply stored_address_no_status.
    by rewrite shipment_header_status, Hst.
Qed.

Lemma invalid_status_defaulted_or_dropped_witness :
  (∃ r, create_inbound_shipment
          (Client (Some (parsed_address sample_address))) (PStr "FBA1")
          (PStr "Shipment") (PStr "ABE2") (Some (PDict <$> [sample_item]))
          (PStr "BOGUS") (PStr "") (PBool false) PNone = Return r
        ∧ parameters r !! "InboundShipmentHeader.ShipmentStatus"
          = Some (PStr "WORKING")
        ∧ field_value r "InboundShipmentHeader.ShipmentStatus"
          = Some (PStr "WORKING"))
  ∧ (∃ r, update_inbound_shipment
            (Client (Some (parsed_address sample_address))) (PStr "FBA1")
            (PStr "Shipment") (PStr "ABE2") (Some (PDict <$> [sample_item]))
            (PStr "BOGUS") (PStr "") (PBool false) PNone = Return r
          ∧ parameters r !! "InboundShipmentHeader.ShipmentStatus"
            = Some PNone
          ∧ field_value r "InboundShipmentHeader.ShipmentStatus" = None).
Proof.
  apply (invalid_status_defaulted_or_dropped
           (Client (Some (parsed_address sample_address)))
           "FBA1" "Shipment" "ABE2" (Some (PDict <$> [sample_item]))
           [sample_item] (PStr "BOGUS")).
  - intros H.
    repeat (apply elem_of_cons in H as [H|H]; [discriminate H|]).
    by apply elem_of_nil in H.
  - split_and!; [reflexivity|discriminate|].
    apply Forall_cons_2; [|apply Forall_nil_2].
    split; eexists; vm_compute; reflexivity.
  - exists sample_address. split; [|reflexivity].
    repeat split; eexists; vm_compute; reflexivity.
Defined.

(** ** The item block of an update *)

Lemma shipment_header_no_item_key action id name dest lp cr st bcs k :
  is_Some (shipment_header action id name dest lp cr st bcs !! k) →
  startswith k "InboundShipmentItems." = false.
Proof.
  intros [v Hk]. apply py_dict_lookup_Some in Hk.
  repeat (apply elem_of_cons in Hk as [[= -> _]|Hk]; [reflexivity|]).
  by apply elem_of_nil in Hk.
Qed.

Lemma header_address_no_item_key (fa : dict) k :
  is_Some (header_address fa !! k) →
  startswith k "InboundShipmentItems." = false.
Proof.
  intros [v Hk]. apply lookup_kmap_Some in Hk as (i & -> & _); [|apply _].
  reflexivity.
Qed.

Lemma header_no_item_key (fa : dict) action id name dest lp cr st bcs k :
  is_Some (dict_update (shipment_header action id name dest lp cr st bcs)
             (header_address fa) !! k) →
  startswith k "InboundShipmentItems." = false.
Proof.
  unfold dict_update. rewrite lookup_union_is_Some. intros [Hk|Hk].
  - by eapply header_address_no_item_key.
  - by eapply shipment_header_no_item_key.
Qed.

Lemma item_name_startswith n f :
  startswith (utils.keyed_name "InboundShipmentItems.member" n f)
    "InboundShipmentItems." = true.
Proof. reflexivity. Qed.

(** C8: on a client with a stored address and with text identifiers, an
    update without items ([None] or empty) hands over a request none of
    whose keys starts with [InboundShipmentItems.]; an update with a valid
    non-empty item list hands over a request in which the field [f] of the
    [i]-th item (counting from 0) is found under
    [InboundShipmentItems.member.<i+1>.<f>], and these are the only keys
    that start with [InboundShipmentItems.]: the indices start at 1 and
    follow the input order. *)
Theorem update_item_block (self : client)
    (shipment_id shipment_name destination : string)
    (items : option (list pyobj))
    (shipment_status label_preference case_required box_contents_source
     : pyval) :
  address_is_set self = true →
  (seq_truthy items = false →
   ∃ r, update_inbound_shipment self (PStr shipment_id)
          (PStr shipment_name) (PStr destination) items shipment_status
          label_preference case_required box_contents_source = Return r
        ∧ ∀ k, is_Some (parameters r !! k) →
               startswith k "InboundShipmentItems." = false)
  ∧ (∀ ds, valid_items items ds →
     ∃ r, update_inbound_shipment self (PStr shipment_id)
            (PStr shipment_name) (PStr destination) items shipment_status
            label_preference case_required box_contents_source = Return r
          ∧ (∀ i d, ds !! i = Some d →
               (∀ f, parameters r
                       !! utils.keyed_name "InboundShipmentItems.member"
                            (S i) f
                     = item_dict "UpdateInboundShipment" d !! f)
               ∧ parameters r
                   !! utils.keyed_name "InboundShipmentItems.member" (S i)
                        "SellerSKU"
                 = d !! "sku"
               ∧ is_Some (parameters r
                   !! utils.keyed_name "InboundShipmentItems.member" (S i)
                        "QuantityShipped")
               ∧ is_Some (parameters r
                   !! utils.keyed_name "InboundShipmentItems.member" (S i)
                        "QuantityInCase"))
          ∧ (∀ k, is_Some (parameters r !! k) →
                  startswith k "InboundShipmentItems." = true →
                  ∃ i f, i < length ds
                         ∧ k = utils.keyed_name
                                 "InboundShipmentItems.member" (S i) f)).
Proof.
  intros Hset. split.
  - intros Hnone. eexists.
    rewrite update_inbound_shipment_no_items by done.
    split; [reflexivity|]. intros k Hk. by eapply header_no_item_key.
  - intros ds Hitems. eexists.
    rewrite (update_inbound_shipment_request _ _ _ _ _ ds) by done.
    split; [reflexivity|]. simpl parameters.
    assert (∀ i d f, ds !! i = Some d →
      dict_update
        (dict_update
           (shipment_header "UpdateInboundShipment" (PStr shipment_id)
              (PStr shipment_name) (PStr destination)
              (if negb (in_strs label_preference LABEL_PREFERENCES)
               then PNone else label_preference)
              (true_or_false case_required)
              (if negb (in_strs shipment_status SHIPMENT_STATUSES)
               then PNone else shipment_status)
              box_contents_source)
           (header_address (default ∅ (from_address self))))
        (utils.enumerate_keyed_param "InboundShipmentItems.member"
           (item_dict "UpdateInboundShipment" <$> ds))
        !! utils.keyed_name "InboundShipmentItems.member" (S i) f
      = item_dict "UpdateInboundShipment" d !! f) as Hfield.
    { intros i d f Hi. unfold dict_update at 1.
      pose proof (enumerate_keyed_from_lookup "InboundShipmentItems.member"
                    1 (item_dict "UpdateInboundShipment" <$> ds) i f) as He.
      rewrite list_lookup_fmap, Hi in He. simpl in He.
      change (utils.enumerate_keyed_from "InboundShipmentItems.member" 1)
        with (utils.enumerate_keyed_param "InboundShipmentItems.member")
        in He.
      destruct (item_dict "UpdateInboundShipment" d !! f) as [v|] eqn:Hf.
      - by apply lookup_union_Some_l.
      - rewrite lookup_union_r by done.
        apply eq_None_not_Some. intros Hk%header_no_item_key.
        by rewrite item_name_startswith in Hk. }
    split.
    + intros i d Hi. split_and!.
      * intros f. by apply Hfield.
      * rewrite (Hfield i d) by done. rewrite item_dict_sku.
        destruct Hitems as (_ & _ & Hds). rewrite Forall_lookup in Hds.
        destruct (Hds i d Hi) as [[v Hv] _]. unfold dict_get. by rewrite Hv.
      * rewrite (Hfield i d) by done.
        change "QuantityShipped" with (quantity_key "UpdateInboundShipment").
        rewrite item_dict_quantity. by eexists.
      * rewrite (Hfield i d) by done.
        rewrite item_dict_quantity_in_case. by eexists.
    + intros k Hk Hprefix. unfold dict_update at 1 in Hk.
      apply lookup_union_is_Some in Hk as [[v Hk]|Hk].
      * apply enumerate_keyed_from_Some in Hk as (i & d & f & Hi & _ & ->).
        exists i, f. split; [|done].
        apply lookup_lt_Some in Hi. by rewrite length_fmap in Hi.
      * apply header_no_item_key in Hk. congruence.
Qed.

Lemma update_item_block_witness :
  (∃ r, update_inbound_shipment
          (Client (Some (parsed_address sample_address))) (PStr "FBA1")
          (PStr "Shipment") (PStr "ABE2") None (PStr "WORKING") (PStr "")
          (PBool false) PNone = Return r
        ∧ ∀ k, is_Some (parameters r !! k) →
               startswith k "InboundShipmentItems." = false)
  ∧ (∃ r, update_inbound_shipment
            (Client (Some (parsed_address sample_address))) (PStr "FBA1")
            (PStr "Shipment") (PStr "ABE2")
            (Some (PDict <$> [sample_item; sample_item_full]))
            (PStr "WORKING") (PStr "") (PBool false) PNone = Return r
          ∧ parameters r
              !! utils.keyed_name "InboundShipmentItems.member" 1 "SellerSKU"
            = sample_item !! "sku"
          ∧ parameters r
              !! utils.keyed_name "InboundShipmentItems.member" 2 "SellerSKU"
            = sample_item_full !! "sku").
Proof.
  split.
  - apply (update_item_block
             (Client (Some (parsed_address sample_address)))
             "FBA1" "Shipment" "ABE2" None (PStr "WORKING") (PStr "")
             (PBool false) PNone); reflexivity.
  - destruct (update_item_block
                (Client (Some (parsed_address sample_address)))
                "FBA1" "Shipment" "ABE2"
                (Some (PDict <$> [sample_item; sample_item_full]))
                (PStr "WORKING") (PStr "") (PBool false) PNone)
      as [_ Hvalid]; [reflexivity|].
    destruct (Hvalid [sample_item; sample_item_full])
      as (r & Hr & Hfields & _).
    + split_and!; [reflexivity|discriminate|].
      repeat (apply Forall_cons_2; [split; eexists; vm_compute; reflexivity|]).
      apply Forall_nil_2.
    + exists r. split; [exact Hr|]. split.
      * apply (Hfields 0 sample_item). reflexivity.
      * apply (Hfields 1 sample_item_full). reflexivity.
Defined.

(** ** Declared and wrapped pagination operations *)

(** C9: in the Reports class the methods wrapped by the next-token
    decorator do not coincide with the class's declared
    [NEXT_TOKEN_OPERATIONS]: [GetReportList] is wrapped and not declared,
    [GetReportScheduleList] is declared and not wrapped.  In the
    InboundShipments class the two do coincide. *)
Theorem reports_wrapping_differs_from_declaration :
  ¬ wrapping_matches_declaration Reports_methods Reports.NEXT_TOKEN_OPERATIONS
  ∧ ("GetReportList" ∈ wrapped_actions Reports_methods
     ∧ "GetReportList" ∉ Reports.NEXT_TOKEN_OPERATIONS)
  ∧ ("GetReportScheduleList" ∈ Reports.NEXT_TOKEN_OPERATIONS
     ∧ "GetReportScheduleList" ∉ wrapped_actions Reports_methods)
  ∧ wrapping_matches_declaration InboundShipments_methods
      InboundShipments.NEXT_TOKEN_OPERATIONS.
Proof.
  assert ("GetReportList" ∈ wrapped_actions Reports_methods) as Hin
    by (apply list_elem_of_In; vm_compute; tauto).
  assert ("GetReportList" ∉ Reports.NEXT_TOKEN_OPERATIONS) as Hout.
  { intros H%list_elem_of_In. vm_compute in H. intuition discriminate. }
  split; [|split; [|split]].
  - intros Hm. apply Hout, Hm, Hin.
  - split; [exact Hin|exact Hout].
  - split.
    + apply list_elem_of_In; vm_compute; tauto.
    + intros H%list_elem_of_In. vm_compute in H. intuition discriminate.
  - intros action. rewrite !list_elem_of_In. vm_compute. tauto.
Qed.

(** * Further properties of the item parser *)

Lemma has_required_item_keys op d :
  has_required d (item_key_config op) = true ↔ has_item_keys d.
Proof. apply has_required_item. Qed.

Lemma parse_item_loop_app op acc ds rest :
  Forall has_item_keys ds →
  parse_item_loop op acc ((PDict <$> ds) ++ rest)
  = parse_item_loop op (acc ++ (item_dict op <$> ds)) rest.
Proof.
  intros Hds. revert acc.
  induction Hds as [|d ds Hd _ IH]; intros acc; simpl.
  - by rewrite app_nil_r.
  - apply (has_required_item_keys op) in Hd. rewrite Hd, IH.
    by rewrite <-app_assoc.
Qed.

Lemma item_missing_keys_message op :
  missing_keys_message "item" (item_key_config op)
  = item_missing_keys_text op.
Proof.
  unfold item_key_config, item_missing_keys_text.
  by destruct (String.eqb op _).
Qed.

Lemma parse_item_args_nonempty op items :
  items ≠ [] →
  parse_item_args (Some items) op = parse_item_loop op [] items.
Proof. by destruct items. Qed.

(** X1: the item parser returns a list exactly when its argument is a
    non-empty list of dictionaries that all have [sku] and [quantity]; what it
    returns is then the list of the items' output dictionaries. *)
Theorem parse_item_args_returns_iff (items : option (list pyobj))
    (op : string) (out : list dict) :
  parse_item_args items op = Return out
  ↔ ∃ ds, valid_items items ds ∧ out = item_dict op <$> ds.
Proof.
  split.
  - intros (l & ds & -> & Hne & [-> Hds] & ->)%parse_item_args_inv.
    exists ds. split; [|done]. split_and!; [done|by destruct ds|].
    eapply Forall_impl; [done|]. intros d Hd. by apply (has_required_item op).
  - intros (ds & Hds & ->).
    by apply (valid_items_parse op) in Hds as (_ & ? & _).
Qed.

(** X2: the first item that is no dictionary, or that lacks [sku] or
    [quantity], decides the error, whatever follows it: the former gives the
    must-be-a-dict error, the latter the error that lists the required and
    the optional keys of the operation's schema. *)
Theorem parse_item_args_first_bad_item (op : string) (good : list dict)
    (bad : pyobj) (rest : list pyobj) :
  Forall has_item_keys good →
  (∀ d, bad = PDict d → ¬ has_item_keys d) →
  parse_item_args (Some ((PDict <$> good) ++ bad :: rest)) op
  = Raise (MWSError
      match bad with
      | PVal _ => "`item` argument must be a dict."
      | PDict _ => item_missing_keys_text op
      end).
Proof.
  intros Hgood Hbad.
  rewrite parse_item_args_nonempty by (by destruct good).
  rewrite parse_item_loop_app by done. simpl.
  destruct bad as [v|d]; [done|].
  destruct (has_required d (item_key_config op)) eqn:Hd.
  - apply has_required_item_keys in Hd. by destruct (Hbad d).
  - by rewrite item_missing_keys_message.
Qed.

Lemma parse_item_args_first_bad_item_witness :
  parse_item_args
    (Some ((PDict <$> [sample_item]) ++ PVal (PStr "SKU-9")
             :: [PDict sample_item_full])) "CreateInboundShipment"
  = Raise (MWSError "`item` argument must be a dict.").
Proof.
  apply (parse_item_args_first_bad_item "CreateInboundShipment"
           [sample_item] (PVal (PStr "SKU-9")) [PDict sample_item_full]).
  - apply Forall_cons_2; [|apply Forall_nil_2].
    split; eexists; vm_compute; reflexivity.
  - intros d Hd. discriminate Hd.
Defined.

Lemma item_dict_dom op d :
  dom (item_dict op d) = list_to_set (item_output_keys op).
Proof.
  unfold item_dict, item_output_keys, item_key_config, quantity_key,
    dict_update.
  destruct (String.eqb op _); simpl; unfold py_dict; simpl;
    rewrite dom_union_L, ?dom_insert_L, ?dom_empty_L; set_solver.
Qed.

Lemma item_dict_keys op d k :
  is_Some (item_dict op d !! k) ↔ k ∈ item_output_keys op.
Proof.
  rewrite <-elem_of_dom, item_dict_dom. apply elem_of_list_to_set.
Qed.

(** X3: every dictionary that the parser returns has exactly the keys of the
    operation's schema ([SellerSKU], the quantity key, [QuantityInCase], and
    for plan creation [ASIN] and [Condition]): no key of an item is copied
    that the schema does not name, and no schema key is left out. *)
Theorem parsed_item_has_schema_keys (items : option (list pyobj))
    (op : string) (out : list dict) :
  parse_item_args items op = Return out →
  Forall (λ o, ∀ k, is_Some (o !! k) ↔ k ∈ item_output_keys op) out.
Proof.
  intros (l & ds & _ & _ & _ & ->)%parse_item_args_inv.
  apply Forall_fmap, Forall_forall. intros d _ k. apply item_dict_keys.
Qed.

Lemma parsed_item_has_schema_keys_witness :
  Forall (λ o, ∀ k, is_Some (o !! k)
                    ↔ k ∈ item_output_keys "UpdateInboundShipment")
    (item_dict "UpdateInboundShipment" <$> [sample_item_full]).
Proof.
  apply (parsed_item_has_schema_keys (Some [PDict sample_item_full])
           "UpdateInboundShipment").
  reflexivity.
Defined.

Lemma agree_on_item_dict op d d' :
  agree_on (item_read_keys op) d d' → item_dict op d = item_dict op d'.
Proof.
  unfold agree_on, item_read_keys, item_dict, item_key_config, dict_get.
  destruct (String.eqb op _); intros H; simpl;
    rewrite ?(H "sku"), ?(H "quantity"), ?(H "quantity_in_case"),
      ?(H "asin"), ?(H "condition"); try done; set_solver.
Qed.

Lemma agree_on_has_required op d d' :
  agree_on (item_read_keys op) d d' →
  has_required d (item_key_config op)
  = has_required d' (item_key_config op).
Proof.
  unfold agree_on, item_read_keys, has_required, item_key_config, dict_has.
  destruct (String.eqb op _); intros H; simpl;
    rewrite (H "sku"), (H "quantity"); try done; set_solver.
Qed.

Lemma agree_on_parse_item_loop op acc ds ds' :
  Forall2 (agree_on (item_read_keys op)) ds ds' →
  parse_item_loop op acc (PDict <$> ds)
  = parse_item_loop op acc (PDict <$> ds').
Proof.
  intros H. revert acc. induction H as [|d d' ds ds' Hd _ IH]; intros acc.
  - done.
  - simpl. rewrite (agree_on_has_required op d d' Hd),
      (agree_on_item_dict op d d' Hd).
    destruct (has_required d' _); [apply IH|done].
Qed.

(** X4: the outcome of the parser, result or error, depends only on what the
    items bind to the keys of the operation's schema ([sku], [quantity],
    [quantity_in_case], and for plan creation [asin] and [condition]): two
    item lists that agree on these keys, item by item, are parsed alike, so
    every other key of an item is ignored. *)
Theorem parse_item_args_ignores_other_keys (op : string)
    (ds ds' : list dict) :
  Forall2 (agree_on (item_read_keys op)) ds ds' →
  parse_item_args (Some (PDict <$> ds)) op
  = parse_item_args (Some (PDict <$> ds')) op.
Proof.
  intros H. destruct H as [|d d' ds ds' Hd H]; [done|].
  rewrite !parse_item_args_nonempty by done.
  apply agree_on_parse_item_loop. by constructor.
Qed.

Lemma parse_item_args_ignores_other_keys_witness :
  parse_item_args (Some (PDict <$> [sample_item_noted]))
    "CreateInboundShipmentPlan"
  = parse_item_args (Some (PDict <$> [sample_item]))
      "CreateInboundShipmentPlan".
Proof.
  apply (parse_item_args_ignores_other_keys "CreateInboundShipmentPlan"
           [sample_item_noted] [sample_item]).
  constructor; [|constructor].
  intros k Hk. unfold item_read_keys in Hk. simpl in Hk.
  repeat (apply elem_of_cons in Hk as [->|Hk]; [vm_compute; reflexivity|]).
  by apply elem_of_nil in Hk.
Defined.

(** X5: for an item list that the parser accepts, the [QuantityInCase] of
    an output is the text [str(q)] when the item binds [quantity_in_case] to
    a value [q] other than [None], and [None] when the item lacks the key or
    binds it to [None]; the presence of a required key is all the parser
    checks, so a [quantity] bound to [None] is accepted and comes out as
    [None]. *)
Theorem parsed_item_optional_quantities (items : option (list pyobj))
    (op : string) (ds : list dict) :
  valid_items items ds →
  ∃ out, parse_item_args items op = Return out
    ∧ ∀ i d, ds !! i = Some d →
        ∃ o, out !! i = Some o
          ∧ (∀ q, d !! "quantity_in_case" = Some q → q ≠ PNone →
               o !! "QuantityInCase" = Some (PStr (py_str q)))
          ∧ (d !! "quantity_in_case" = None
             ∨ d !! "quantity_in_case" = Some PNone →
               o !! "QuantityInCase" = Some PNone)
          ∧ (d !! "quantity" = Some PNone →
               o !! quantity_key op = Some PNone).
Proof.
  intros Hv. exists (item_dict op <$> ds). split.
  - by apply (valid_items_parse op) in Hv as (_ & ? & _).
  - intros i d Hi. exists (item_dict op d).
    rewrite list_lookup_fmap, Hi, item_dict_quantity_in_case,
      item_dict_quantity. unfold dict_get.
    split_and!; [done| | |].
    + intros q -> Hq. by destruct q.
    + by intros [-> | ->].
    + by intros ->.
Qed.

Lemma parsed_item_optional_quantities_witness :
  ∃ out,
    parse_item_args
      (Some (PDict <$> [sample_item_full; sample_item_none_quantity]))
      "CreateInboundShipment" = Return out
    ∧ ∀ i d, [sample_item_full; sample_item_none_quantity] !! i = Some d →
        ∃ o, out !! i = Some o
          ∧ (∀ q, d !! "quantity_in_case" = Some q → q ≠ PNone →
               o !! "QuantityInCase" = Some (PStr (py_str q)))
          ∧ (d !! "quantity_in_case" = None
             ∨ d !! "quantity_in_case" = Some PNone →
               o !! "QuantityInCase" = Some PNone)
          ∧ (d !! "quantity" = Some PNone →
               o !! quantity_key "CreateInboundShipment" = Some PNone).
Proof.
  apply (parsed_item_optional_quantities
           (Some (PDict <$> [sample_item_full; sample_item_none_quantity]))
           "CreateInboundShipment"
           [sample_item_full; sample_item_none_quantity]).
  split_and!; [reflexivity|discriminate|].
  repeat (apply Forall_cons_2; [split; eexists; vm_compute; reflexivity|]).
  apply Forall_nil_2.
Defined.

(** * Further properties of the ship-from address *)

Lemma set_ship_from_address_rejects self address :
  ¬ acceptable_address address →
  ∃ msg, set_ship_from_address self address
         = (Client None, Raise (MWSError msg))
    ∧ (obj_truthy address = false →
       msg = "Missing required `address` dict.")
    ∧ (∀ v, address = PVal v → truthy v = true →
       msg = "`address` must be a dict").
Proof.
  intros Hbad. unfold set_ship_from_address.
  destruct address as [v|a]; simpl.
  - destruct (truthy v) eqn:Hv; simpl; eexists; (split; [reflexivity|]);
      (split; [intros; done|]); intros v' [= <-] Hv'; congruence.
  - destruct (dict_truthy a); simpl.
    + destruct (has_required a address_key_config) eqn:Ha; simpl.
      * destruct Hbad. exists a. split; [done|].
        by apply has_required_address.
      * eexists. split; [reflexivity|]. split; [intros; done|].
        intros v' [=].
    + eexists. split; [reflexivity|]. split; [intros; done|].
      intros v' [=].
Qed.

(** X6: the address setter either is given a dictionary with [name],
    [address_1] and [city], stores its parsed form and returns [None], or
    leaves the client without an address and raises an [MWSError]: the
    missing-address error for every falsy argument ([None], an empty string
    or dictionary), the must-be-a-dict error for every other value that is
    no dictionary. *)
Theorem set_ship_from_address_outcome (self : client) (address : pyobj) :
  (∃ a, address = PDict a ∧ has_address_keys a
        ∧ set_ship_from_address self address
          = (Client (Some (parsed_address a)), Return None))
  ∨ (¬ acceptable_address address
     ∧ ∃ msg, set_ship_from_address self address
              = (Client None, Raise (MWSError msg))
         ∧ (obj_truthy address = false →
            msg = "Missing required `address` dict.")
         ∧ (∀ v, address = PVal v → truthy v = true →
            msg = "`address` must be a dict")).
Proof.
  destruct address as [v|a].
  - right. assert (¬ acceptable_address (PVal v)) as Hbad
      by (by intros (a & [=] & _)).
    split; [done|]. by apply set_ship_from_address_rejects.
  - destruct (has_required a address_key_config) eqn:Ha.
    + apply has_required_address in Ha. left. exists a.
      split_and!; [done..|]. by apply set_ship_from_address_ok.
    + right. assert (¬ acceptable_address (PDict a)) as Hbad.
      { intros (a' & [= <-] & Ha'%has_required_address). congruence. }
      split; [done|]. by apply set_ship_from_address_rejects.
Qed.

Lemma parsed_address_is_Some a k :
  is_Some (parsed_address a !! k) ↔ k ∈ address_output_keys.
Proof.
  split.
  - intros [v Hk%py_dict_lookup_Some]. simpl in Hk.
    repeat (apply elem_of_cons in Hk as [[= -> _]|Hk];
            [apply list_elem_of_In; vm_compute; tauto|]).
    by apply elem_of_nil in Hk.
  - intros Hk. unfold address_output_keys in Hk.
    repeat (apply elem_of_cons in Hk as [->|Hk];
            [eexists; unfold parsed_address, py_dict; simpl;
             by simplify_map_eq|]).
    by apply elem_of_nil in Hk.
Qed.

(** X7: the address that the setter stores has exactly the eight
    [ShipFromAddress.*] keys, whatever other keys the argument has; the
    required fields hold the argument's values, and an optional field other
    than the country holds the argument's value or, when the argument lacks
    it, [None]. *)
Theorem stored_address_fields (self : client) (a : dict) :
  has_address_keys a →
  ∃ d, (set_ship_from_address self (PDict a)).1 = Client (Some d)
    ∧ (∀ k, is_Some (d !! k) ↔ k ∈ address_output_keys)
    ∧ d !! "ShipFromAddress.Name" = a !! "name"
    ∧ d !! "ShipFromAddress.AddressLine1" = a !! "address_1"
    ∧ d !! "ShipFromAddress.City" = a !! "city"
    ∧ d !! "ShipFromAddress.AddressLine2"
      = Some (default PNone (a !! "address_2"))
    ∧ d !! "ShipFromAddress.DistrictOrCounty"
      = Some (default PNone (a !! "district_or_county"))
    ∧ d !! "ShipFromAddress.StateOrProvinceCode"
      = Some (default PNone (a !! "state_or_province"))
    ∧ d !! "ShipFromAddress.PostalCode"
      = Some (default PNone (a !! "postal_code")).
Proof.
  intros Ha. exists (parsed_address a).
  rewrite set_ship_from_address_ok by done.
  destruct Ha as ([n Hn] & [l Hl] & [c Hc]).
  split; [done|]. split; [apply parsed_address_is_Some|].
  rewrite Hn, Hl, Hc.
  split_and!; unfold parsed_address, py_dict, dict_get; simpl;
    rewrite ?Hn, ?Hl, ?Hc; by simplify_map_eq.
Qed.

Lemma stored_address_fields_witness :
  ∃ d, (set_ship_from_address (Client None) (PDict sample_address_abroad)).1
       = Client (Some d)
    ∧ (∀ k, is_Some (d !! k) ↔ k ∈ address_output_keys)
    ∧ d !! "ShipFromAddress.Name" = sample_address_abroad !! "name"
    ∧ d !! "ShipFromAddress.AddressLine1"
      = sample_address_abroad !! "address_1"
    ∧ d !! "ShipFromAddress.City" = sample_address_abroad !! "city"
    ∧ d !! "ShipFromAddress.AddressLine2"
      = Some (default PNone (sample_address_abroad !! "address_2"))
    ∧ d !! "ShipFromAddress.DistrictOrCounty"
      = Some (default PNone (sample_address_abroad !! "district_or_county"))
    ∧ d !! "ShipFromAddress.StateOrProvinceCode"
      = Some (default PNone (sample_address_abroad !! "state_or_province"))
    ∧ d !! "ShipFromAddress.PostalCode"
      = Some (default PNone (sample_address_abroad !! "postal_code")).
Proof.
  apply (stored_address_fields (Client None) sample_address_abroad).
  repeat split; eexists; vm_compute; reflexivity.
Defined.

(** X8: constructing a client with a [from_address] that is not [None] and
    that the setter does not accept (an empty dictionary, a dictionary
    without [name], [address_1] or [city], a value that is no dictionary)
    raises the setter's [MWSError], whatever the base class initializer would
    have done: no client is constructed. *)
Theorem init_rejects_bad_address (addr : pyobj) (base_init : result unit) :
  addr ≠ PVal PNone → ¬ acceptable_address addr →
  is_mws_error (__init__ addr base_init).
Proof.
  intros Hnone Hbad. unfold __init__.
  destruct (set_ship_from_address_rejects (Client (Some ∅)) addr Hbad)
    as (msg & Hset & _).
  exists msg. destruct addr as [[]|a]; try done; by rewrite Hset.
Qed.

Lemma init_rejects_bad_address_witness :
  is_mws_error (__init__ (PDict ∅) (Return tt)).
Proof.
  apply (init_rejects_bad_address (PDict ∅) (Return tt)).
  - discriminate.
  - intros (a & [= <-] & [[v Hv] _]). vm_compute in Hv. discriminate Hv.
Defined.

(** * Further properties of the shipment requests *)

Lemma shipment_header_is_Some action id name dest lp cr st bcs k :
  is_Some (shipment_header action id name dest lp cr st bcs !! k)
  ↔ k ∈ shipment_header_keys.
Proof.
  split.
  - intros [v Hk%py_dict_lookup_Some].
    repeat (apply elem_of_cons in Hk as [[= -> _]|Hk];
            [apply list_elem_of_In; vm_compute; tauto|]).
    by apply elem_of_nil in Hk.
  - intros Hk. unfold shipment_header_keys in Hk.
    repeat (apply elem_of_cons in Hk as [->|Hk];
            [eexists; unfold shipment_header, py_dict; simpl;
             by simplify_map_eq|]).
    by apply elem_of_nil in Hk.
Qed.

(** The re-prefixed stored address binds no key of the header literal. *)
Lemma stored_address_no_header_key a k :
  k ∈ shipment_header_keys → header_address (parsed_address a) !! k = None.
Proof.
  intros Hk. apply lookup_kmap_None; [apply _|]. intros i ->.
  destruct (parsed_address a !! i) as [v|] eqn:Hi; [|done].
  apply parsed_address_keys in Hi as [f ->].
  unfold shipment_header_keys in Hk.
  repeat (apply elem_of_cons in Hk as [Hk|Hk];
          [cbv [String.append] in Hk; discriminate Hk|]).
  by apply elem_of_nil in Hk.
Qed.

Lemma stored_header_lookup a action id name dest lp cr st bcs k :
  k ∈ shipment_header_keys →
  dict_update (shipment_header action id name dest lp cr st bcs)
    (header_address (parsed_address a)) !! k
  = shipment_header action id name dest lp cr st bcs !! k.
Proof.
  intros Hk. unfold dict_update.
  by rewrite lookup_union_r by by apply stored_address_no_header_key.
Qed.

Lemma stored_address_header_lookup a action id name dest lp cr st bcs f :
  f ∈ address_output_keys →
  dict_update (shipment_header action id name dest lp cr st bcs)
    (header_address (parsed_address a)) !! ("InboundShipmentHeader." +:+ f)
  = parsed_address a !! f.
Proof.
  intros [v Hf]%(parsed_address_is_Some a). unfold dict_update.
  rewrite Hf. apply lookup_union_Some_l. by rewrite header_address_lookup.
Qed.

(** X9: after the setter has accepted an address, an update without items
    is posted with the stored address under
    [InboundShipmentHeader.ShipFromAddress.*] (the name as given, the country
    code as given or ["US"]), and the request has the eight keys of the
    header and the eight re-prefixed address keys, and no other. *)
Theorem update_after_set_address (self : client) (a : dict)
    (shipment_id shipment_name destination : string)
    (items : option (list pyobj))
    (shipment_status label_preference case_required box_contents_source
     : pyval) :
  has_address_keys a → seq_truthy items = false →
  ∃ r, update_inbound_shipment (set_ship_from_address self (PDict a)).1
         (PStr shipment_id) (PStr shipment_name) (PStr destination) items
         shipment_status label_preference case_required box_contents_source
       = Return r
    ∧ http_method r = Some "POST"
    ∧ (∀ f, f ∈ address_output_keys →
         parameters r !! ("InboundShipmentHeader." +:+ f)
         = parsed_address a !! f)
    ∧ parameters r !! "InboundShipmentHeader.ShipFromAddress.Name"
      = a !! "name"
    ∧ parameters r !! "InboundShipmentHeader.ShipFromAddress.CountryCode"
      = Some (default (PStr "US") (a !! "country"))
    ∧ (∀ k, is_Some (parameters r !! k)
            ↔ k ∈ shipment_header_keys
              ∨ ∃ f, f ∈ address_output_keys
                     ∧ k = "InboundShipmentHeader." +:+ f).
Proof.
  intros Ha Hi. rewrite set_ship_from_address_ok by done. cbn [fst].
  eexists. rewrite update_inbound_shipment_no_items;
    [|done|apply parsed_address_truthy].
  split; [reflexivity|]. cbn [parameters http_method from_address default id].
  split; [done|]. split; [|split; [|split]].
  - intros f Hf. by apply stored_address_header_lookup.
  - change "InboundShipmentHeader.ShipFromAddress.Name"
      with ("InboundShipmentHeader." +:+ "ShipFromAddress.Name").
    rewrite stored_address_header_lookup
      by (apply list_elem_of_In; vm_compute; tauto).
    rewrite parsed_address_name. unfold dict_get.
    destruct Ha as ([n Hn] & _). by rewrite Hn.
  - change "InboundShipmentHeader.ShipFromAddress.CountryCode"
      with ("InboundShipmentHeader." +:+ "ShipFromAddress.CountryCode").
    rewrite stored_address_header_lookup
      by (apply list_elem_of_In; vm_compute; tauto).
    by rewrite parsed_address_country.
  - intros k. unfold dict_update at 1.
    rewrite lookup_union_is_Some, shipment_header_is_Some. split.
    + intros [[v Hk]|Hk]; [right|by left].
      apply lookup_kmap_Some in Hk as (f & -> & Hf); [|apply _].
      exists f. split; [|done]. apply (parsed_address_is_Some a f). by eexists.
    + intros [Hk|(f & Hf & ->)]; [by right|left].
      rewrite header_address_lookup. by apply (parsed_address_is_Some a f).
Qed.

Lemma update_after_set_address_witness :
  ∃ r, update_inbound_shipment
         (set_ship_from_address (Client None) (PDict sample_address)).1
         (PStr "FBA1") (PStr "Shipment") (PStr "ABE2") None
         (PStr "SHIPPED") (PStr "") (PBool false) PNone
       = Return r
    ∧ http_method r = Some "POST"
    ∧ (∀ f, f ∈ address_output_keys →
         parameters r !! ("InboundShipmentHeader." +:+ f)
         = parsed_address sample_address !! f)
    ∧ parameters r !! "InboundShipmentHeader.ShipFromAddress.Name"
      = sample_address !! "name"
    ∧ parameters r !! "InboundShipmentHeader.ShipFromAddress.CountryCode"
      = Some (default (PStr "US") (sample_address !! "country"))
    ∧ (∀ k, is_Some (parameters r !! k)
            ↔ k ∈ shipment_header_keys
              ∨ ∃ f, f ∈ address_output_keys
                     ∧ k = "InboundShipmentHeader." +:+ f).
Proof.
  apply (update_after_set_address (Client None) sample_address "FBA1"
           "Shipment" "ABE2" None (PStr "SHIPPED") (PStr "") (PBool false)
           PNone).
  - repeat split; eexists; vm_compute; reflexivity.
  - reflexivity.
Defined.

(** X10: on a client whose address was stored by the setter, the header of
    an update without items carries the identifiers as given, the label
    preference and the shipment status when they are among the allowed
    values and [None] otherwise, the case flag as the text ["true"] or
    ["false"] by its truth value, and the box contents source as given: the
    stored address overwrites none of them. *)
Theorem update_header_fields (self : client)
    (shipment_id shipment_name destination : string)
    (items : option (list pyobj))
    (shipment_status label_preference case_required box_contents_source
     : pyval) :
  address_stored self → seq_truthy items = false →
  ∃ r, update_inbound_shipment self (PStr shipment_id)
         (PStr shipment_name) (PStr destination) items shipment_status
         label_preference case_required box_contents_source = Return r
    ∧ parameters r !! "Action" = Some (PStr "UpdateInboundShipment")
    ∧ parameters r !! "ShipmentId" = Some (PStr shipment_id)
    ∧ parameters r !! "InboundShipmentHeader.ShipmentName"
      = Some (PStr shipment_name)
    ∧ parameters r !! "InboundShipmentHeader.DestinationFulfillmentCenterId"
      = Some (PStr destination)
    ∧ parameters r !! "InboundShipmentHeader.LabelPrepPreference"
      = Some (if in_strs label_preference LABEL_PREFERENCES
              then label_preference else PNone)
    ∧ parameters r !! "InboundShipmentHeader.AreCasesRequired"
      = Some (PStr (if truthy case_required then "true" else "false"))
    ∧ parameters r !! "InboundShipmentHeader.ShipmentStatus"
      = Some (if in_strs shipment_status SHIPMENT_STATUSES
              then shipment_status else PNone)
    ∧ parameters r !! "InboundShipmentHeader.IntendedBoxContentsSource"
      = Some box_contents_source.
Proof.
  intros Hstored Hi. eexists.
  rewrite update_inbound_shipment_no_items;
    [|done|by apply address_stored_is_set].
  destruct Hstored as (a & _ & ->). split; [reflexivity|].
  cbn [parameters from_address default id].
  split_and!;
    (rewrite stored_header_lookup
       by (apply list_elem_of_In; vm_compute; tauto));
    unfold shipment_header, py_dict, true_or_false; simpl;
    simplify_map_eq; try done; by destruct (in_strs _ _).
Qed.

Lemma update_header_fields_witness :
  ∃ r, update_inbound_shipment
         (Client (Some (parsed_address sample_address))) (PStr "FBA1")
         (PStr "Shipment") (PStr "ABE2") None (PStr "SHIPPED")
         (PStr "BOGUS") (PInt 1) PNone = Return r
    ∧ parameters r !! "Action" = Some (PStr "UpdateInboundShipment")
    ∧ parameters r !! "ShipmentId" = Some (PStr "FBA1")
    ∧ parameters r !! "InboundShipmentHeader.ShipmentName"
      = Some (PStr "Shipment")
    ∧ parameters r !! "InboundShipmentHeader.DestinationFulfillmentCenterId"
      = Some (PStr "ABE2")
    ∧ parameters r !! "InboundShipmentHeader.LabelPrepPreference"
      = Some (if in_strs (PStr "BOGUS") LABEL_PREFERENCES
              then PStr "BOGUS" else PNone)
    ∧ parameters r !! "InboundShipmentHeader.AreCasesRequired"
      = Some (PStr (if truthy (PInt 1) then "true" else "false"))
    ∧ parameters r !! "InboundShipmentHeader.ShipmentStatus"
      = Some (if in_strs (PStr "SHIPPED") SHIPMENT_STATUSES
              then PStr "SHIPPED" else PNone)
    ∧ parameters r !! "InboundShipmentHeader.IntendedBoxContentsSource"
      = Some PNone.
Proof.
  apply (update_header_fields
           (Client (Some (parsed_address sample_address))) "FBA1"
           "Shipment" "ABE2" None (PStr "SHIPPED") (PStr "BOGUS") (PInt 1)
           PNone).
  - exists sample_address. split; [|reflexivity].
    repeat split; eexists; vm_compute; reflexivity.
  - reflexivity.
Defined.

(** * Which error a call raises *)

Lemma parse_item_loop_error op acc item_args e :
  parse_item_loop op acc item_args = Raise e →
  e = MWSError "`item` argument must be a dict."
  ∨ e = MWSError (item_missing_keys_text op).
Proof.
  revert acc. induction item_args as [|[v|d] rest IH]; intros acc; simpl.
  - done.
  - intros [= <-]. by left.
  - destruct (has_required d _); [apply IH|].
    intros [= <-]. right. by rewrite item_missing_keys_message.
Qed.

Lemma item_missing_keys_text_not_required op :
  item_missing_keys_text op ≠ items_required_message.
Proof. unfold item_missing_keys_text. by destruct (String.eqb op _). Qed.

Lemma parse_item_args_not_required_error op items :
  seq_truthy items = true →
  parse_item_args items op ≠ Raise (MWSError items_required_message).
Proof.
  intros Hi. destruct items as [[|o items]|]; try done.
  rewrite parse_item_args_cons.
  intros [[=]|[= He]]%parse_item_loop_error.
  by destruct (item_missing_keys_text_not_required op).
Qed.

Lemma assert_shipment_strings_error id name dest e :
  assert_shipment_strings id name dest = Raise e →
  ∃ msg, e = AssertionError msg.
Proof.
  unfold assert_shipment_strings, py_assert.
  destruct (isinstance_str id), (isinstance_str name),
    (isinstance_str dest); simpl; intros [= <-]; by eexists.
Qed.

(** X11: the error that asks for one or more items is raised by plan
    creation, and by shipment creation with text identifiers, exactly when
    the item argument is [None] or empty; an update never raises it,
    whatever its arguments. *)
Theorem items_required_error_raised (self : client)
    (id name dest : pyval) (shipment_id shipment_name destination : string)
    (items : option (list pyobj))
    (country_code subdivision_code shipment_status label_preference
     case_required box_contents_source : pyval) :
  (create_inbound_shipment_plan self items country_code subdivision_code
     label_preference = Raise (MWSError items_required_message)
   ↔ seq_truthy items = false)
  ∧ (create_inbound_shipment self (PStr shipment_id) (PStr shipment_name)
       (PStr destination) items shipment_status label_preference
       case_required box_contents_source
     = Raise (MWSError items_required_message)
     ↔ seq_truthy items = false)
  ∧ update_inbound_shipment self id name dest items shipment_status
      label_preference case_required box_contents_source
    ≠ Raise (MWSError items_required_message).
Proof.
  split_and!.
  - unfold create_inbound_shipment_plan.
    destruct (seq_truthy items) eqn:Hi; cbn [negb raise_if mbind result_bind];
      [|by split].
    split; [|done]. intros Hr. exfalso. revert Hr.
    pose proof (parse_item_args_not_required_error
                  "CreateInboundShipmentPlan" items Hi) as Hp.
    destruct (parse_item_args items _) as [out|e];
      cbn [mbind result_bind]; [|intros [= ->]; by destruct Hp].
    simpl. by destruct (address_is_set self).
  - unfold create_inbound_shipment.
    rewrite assert_shipment_strings_text.
    destruct (seq_truthy items) eqn:Hi; cbn [negb raise_if mbind result_bind];
      [|by split].
    split; [|done]. intros Hr. exfalso. revert Hr.
    pose proof (parse_item_args_not_required_error
                  "CreateInboundShipment" items Hi) as Hp.
    destruct (parse_item_args items _) as [out|e];
      cbn [mbind result_bind]; [|intros [= ->]; by destruct Hp].
    simpl. by destruct (address_is_set self).
  - unfold update_inbound_shipment.
    destruct (assert_shipment_strings id name dest) as [[]|e] eqn:Ha.
    + destruct (seq_truthy items) eqn:Hi.
      * pose proof (parse_item_args_not_required_error
                      "UpdateInboundShipment" items Hi) as Hp.
        destruct (parse_item_args items _) as [out|e];
          cbn [mbind result_bind]; [|intros [= ->]; by destruct Hp].
        simpl. by destruct (address_is_set self).
      * simpl. by destruct (address_is_set self).
    + apply assert_shipment_strings_error in Ha as [msg ->]. done.
Qed.

(** X12: a call of the setter that fails loses the address that an earlier
    call has stored: an update that the client accepted before the failed
    call is refused after it with the address-not-set error. *)
Theorem failed_reset_unsets_address (self : client) (a : dict)
    (bad : pyobj) (shipment_id shipment_name destination : string)
    (items : option (list pyobj))
    (shipment_status label_preference case_required box_contents_source
     : pyval) :
  has_address_keys a → ¬ acceptable_address bad →
  seq_truthy items = false →
  let self1 := (set_ship_from_address self (PDict a)).1 in
  let self2 := (set_ship_from_address self1 bad).1 in
  (∃ r, update_inbound_shipment self1 (PStr shipment_id)
          (PStr shipment_name) (PStr destination) items shipment_status
          label_preference case_required box_contents_source = Return r)
  ∧ update_inbound_shipment self2 (PStr shipment_id) (PStr shipment_name)
      (PStr destination) items shipment_status label_preference
      case_required box_contents_source
    = Raise (MWSError address_not_set_message).
Proof.
  intros Ha Hbad Hi self1 self2. subst self1 self2.
  rewrite set_ship_from_address_ok by done. cbn [fst].
  destruct (set_ship_from_address_rejects
              (Client (Some (parsed_address a))) bad Hbad)
    as (msg & -> & _). cbn [fst].
  split.
  - eexists. apply update_inbound_shipment_no_items; [done|].
    apply parsed_address_truthy.
  - unfold update_inbound_shipment.
    by rewrite assert_shipment_strings_text, Hi.
Qed.

Lemma failed_reset_unsets_address_witness :
  (∃ r, update_inbound_shipment
          (set_ship_from_address (Client None) (PDict sample_address)).1
          (PStr "FBA1") (PStr "Shipment") (PStr "ABE2") None (PStr "")
          (PStr "") (PBool false) PNone = Return r)
  ∧ update_inbound_shipment
      (set_ship_from_address
         (set_ship_from_address (Client None) (PDict sample_address)).1
         (PVal (PStr "1 Main St"))).1
      (PStr "FBA1") (PStr "Shipment") (PStr "ABE2") None (PStr "")
      (PStr "") (PBool false) PNone
    = Raise (MWSError address_not_set_message).
Proof.
  apply (failed_reset_unsets_address (Client None) sample_address
           (PVal (PStr "1 Main St")) "FBA1" "Shipment" "ABE2" None
           (PStr "") (PStr "") (PBool false) PNone).
  - repeat split; eexists; vm_compute; reflexivity.
  - intros (a & Ha & _). discriminate Ha.
  - reflexivity.
Defined.

(** * The plan request *)

Lemma plan_items_lookup_None values k :
  startswith k "InboundShipmentPlanRequestItems.member." = false →
  utils.enumerate_keyed_param "InboundShipmentPlanRequestItems.member"
    values !! k = None.
Proof.
  intros Hk. apply eq_None_not_Some.
  intros Hs%enumerate_keyed_startswith.
  cbv [String.append] in Hs. congruence.
Qed.

Lemma parsed_address_lookup_None a k :
  startswith k "ShipFromAddress." = false → parsed_address a !! k = None.
Proof.
  intros Hk. destruct (parsed_address a !! k) as [v|] eqn:Hv; [|done].
  apply parsed_address_keys in Hv as [f ->].
  unfold startswith in Hk. by rewrite prefix_app in Hk.
Qed.

(** X13: on a client whose address was stored by the setter, plan creation
    with a valid item list posts a request with the country code as given,
    the subdivision code and the label preference as given when truthy and
    [None] otherwise (the label preference is not checked against
    [LABEL_PREFERENCES], unlike in create and update), and the eight fields
    of the stored address under their [ShipFromAddress.*] names; neither the
    address nor the item block overwrites [Action]. *)
Theorem plan_request_fields (self : client) (a : dict)
    (items : option (list pyobj)) (ds : list dict)
    (country_code subdivision_code label_preference : pyval) :
  has_address_keys a → valid_items items ds →
  ∃ r, create_inbound_shipment_plan
         (set_ship_from_address self (PDict a)).1 items country_code
         subdivision_code label_preference = Return r
    ∧ http_method r = Some "POST"
    ∧ parameters r !! "Action" = Some (PStr "CreateInboundShipmentPlan")
    ∧ parameters r !! "ShipToCountryCode" = Some country_code
    ∧ parameters r !! "ShipToCountrySubdivisionCode"
      = Some (if truthy subdivision_code then subdivision_code else PNone)
    ∧ parameters r !! "LabelPrepPreference"
      = Some (if truthy label_preference then label_preference else PNone)
    ∧ (∀ f, f ∈ address_output_keys →
         parameters r !! f = parsed_address a !! f).
Proof.
  intros Ha (Hi & Hp & _)%(valid_items_parse "CreateInboundShipmentPlan").
  rewrite set_ship_from_address_ok by done. cbn [fst].
  unfold create_inbound_shipment_plan.
  rewrite Hi, Hp. unfold address_is_set. cbn [from_address].
  rewrite parsed_address_truthy.
  cbn [negb raise_if mbind result_bind default id].
  eexists. split; [reflexivity|]. cbn [parameters http_method].
  split; [done|]. unfold dict_update.
  split_and!;
    try (rewrite lookup_union_r by (by apply plan_items_lookup_None);
         rewrite lookup_union_r by (by apply parsed_address_lookup_None);
         unfold py_dict, or_none; simpl; by simplify_map_eq).
  intros f Hf. rewrite lookup_union_r.
  - destruct (proj2 (parsed_address_is_Some a f) Hf) as [v Hv].
    rewrite Hv. by apply lookup_union_Some_l.
  - apply plan_items_lookup_None. unfold address_output_keys in Hf.
    repeat (apply elem_of_cons in Hf as [->|Hf]; [reflexivity|]).
    by apply elem_of_nil in Hf.
Qed.

Lemma plan_request_fields_witness :
  ∃ r, create_inbound_shipment_plan
         (set_ship_from_address (Client None) (PDict sample_address)).1
         (Some (PDict <$> [sample_item])) (PStr "US") (PStr "")
         (PStr "BOGUS") = Return r
    ∧ http_method r = Some "POST"
    ∧ parameters r !! "Action" = Some (PStr "CreateInboundShipmentPlan")
    ∧ parameters r !! "ShipToCountryCode" = Some (PStr "US")
    ∧ parameters r !! "ShipToCountrySubdivisionCode"
      = Some (if truthy (PStr "") then PStr "" else PNone)
    ∧ parameters r !! "LabelPrepPreference"
      = Some (if truthy (PStr "BOGUS") then PStr "BOGUS" else PNone)
    ∧ (∀ f, f ∈ address_output_keys →
         parameters r !! f = parsed_address sample_address !! f).
Proof.
  apply (plan_request_fields (Client None) sample_address
           (Some (PDict <$> [sample_item])) [sample_item] (PStr "US")
           (PStr "") (PStr "BOGUS")).
  - repeat split; eexists; vm_compute; reflexivity.
  - split_and!; [reflexivity|discriminate|].
    apply Forall_cons_2; [|apply Forall_nil_2].
    split; eexists; vm_compute; reflexivity.
Defined.

(** * The report request list *)

Lemma prefix_cons_inv c p k :
  String.prefix (String c p) k = true →
  ∃ k', k = String c k' ∧ String.prefix p k' = true.
Proof.
  destruct k as [|c' k']; simpl; [done|].
  destruct (ascii_dec c c') as [->|]; [|done]. eauto.
Qed.

Ltac prefixes_differ H1 H2 :=
  unfold startswith in H1, H2;
  repeat (apply prefix_cons_inv in H1 as (? & -> & H1);
          apply prefix_cons_inv in H2 as (? & [= <-] & H2)).

Lemma ids_not_types k :
  startswith k "ReportRequestIdList.Id." = true →
  startswith k "ReportTypeList.Type." = true → False.
Proof. intros H1 H2. prefixes_differ H1 H2. Qed.

Lemma ids_not_statuses k :
  startswith k "ReportRequestIdList.Id." = true →
  startswith k "ReportProcessingStatusList.Status." = true → False.
Proof. intros H1 H2. prefixes_differ H1 H2. Qed.

Lemma types_not_statuses k :
  startswith k "ReportTypeList.Type." = true →
  startswith k "ReportProcessingStatusList.Status." = true → False.
Proof. intros H1 H2. prefixes_differ H1 H2. Qed.

Lemma enumerate_param_lookup_None `{Collaborators} prefix values k :
  enumerates_under_prefix → startswith k prefix = false →
  enumerate_param prefix values !! k = None.
Proof.
  intros Hen Hk. apply eq_None_not_Some. intros Hs%Hen. congruence.
Qed.

Lemma sample_enumerates_under_prefix :
  enumerates_under_prefix (H := sample_collaborators).
Proof.
  intros prefix values k [v Hk%py_dict_lookup_Some].
  apply list_elem_of_lookup in Hk as [i Hi].
  rewrite list_lookup_imap in Hi.
  destruct (values !! i); [|done]. injection Hi as <- _.
  apply prefix_app.
Qed.

(** X14: for any implementation of [enumerate_param] that binds only keys
    starting with the prefix it is given, the request that the body of
    [get_report_request_list] hands over (with no HTTP method named) carries
    the action and the three scalar fields as given and every entry of each
    of its three enumerated blocks: no later [update] overwrites an earlier
    entry. *)
Theorem report_request_list_keeps_blocks `{Collaborators}
    (requestids types processingstatuses : list pyval)
    (max_count fromdate todate : pyval) :
  enumerates_under_prefix →
  ∃ r, Reports.get_report_request_list_body requestids types
         processingstatuses max_count fromdate todate = Return r
    ∧ http_method r = None
    ∧ parameters r !! "Action" = Some (PStr "GetReportRequestList")
    ∧ parameters r !! "MaxCount" = Some max_count
    ∧ parameters r !! "RequestedFromDate" = Some fromdate
    ∧ parameters r !! "RequestedToDate" = Some todate
    ∧ enumerate_param "ReportRequestIdList.Id." requestids ⊆ parameters r
    ∧ enumerate_param "ReportTypeList.Type." types ⊆ parameters r
    ∧ enumerate_param "ReportProcessingStatusList.Status."
        processingstatuses ⊆ parameters r.
Proof.
  intros Hen. eexists. split; [reflexivity|].
  cbn [parameters http_method]. split; [done|]. unfold dict_update.
  split_and!;
    try (rewrite !lookup_union_r
           by (by apply enumerate_param_lookup_None);
         unfold py_dict; simpl; by simplify_map_eq).
  - apply map_subseteq_spec. intros k v Hk.
    assert (startswith k "ReportRequestIdList.Id." = true) as Hs
      by (eapply Hen; by eexists).
    rewrite lookup_union_r;
      [rewrite lookup_union_r; [by apply lookup_union_Some_l|]|].
    + apply eq_None_not_Some. intros Hs'%Hen.
      by apply (ids_not_types k).
    + apply eq_None_not_Some. intros Hs'%Hen.
      by apply (ids_not_statuses k).
  - apply map_subseteq_spec. intros k v Hk.
    assert (startswith k "ReportTypeList.Type." = true) as Hs
      by (eapply Hen; by eexists).
    rewrite lookup_union_r; [by apply lookup_union_Some_l|].
    apply eq_None_not_Some. intros Hs'%Hen.
    by apply (types_not_statuses k).
  - apply map_union_subseteq_l.
Qed.

Lemma report_request_list_keeps_blocks_witness :
  ∃ r, Reports.get_report_request_list_body (H := sample_collaborators)
         [PStr "R1"; PStr "R2"] [PStr "_GET_FLAT_FILE_ORDERS_DATA_"]
         [PStr "_DONE_"] (PInt 10) PNone PNone = Return r
    ∧ http_method r = None
    ∧ parameters r !! "Action" = Some (PStr "GetReportRequestList")
    ∧ parameters r !! "MaxCount" = Some (PInt 10)
    ∧ parameters r !! "RequestedFromDate" = Some PNone
    ∧ parameters r !! "RequestedToDate" = Some PNone
    ∧ enumerate_param (Collaborators := sample_collaborators)
        "ReportRequestIdList.Id." [PStr "R1"; PStr "R2"] ⊆ parameters r
    ∧ enumerate_param (Collaborators := sample_collaborators)
        "ReportTypeList.Type." [PStr "_GET_FLAT_FILE_ORDERS_DATA_"]
        ⊆ parameters r
    ∧ enumerate_param (Collaborators := sample_collaborators)
        "ReportProcessingStatusList.Status." [PStr "_DONE_"]
        ⊆ parameters r.
Proof.
  apply (report_request_list_keeps_blocks (H := sample_collaborators)
           [PStr "R1"; PStr "R2"] [PStr "_GET_FLAT_FILE_ORDERS_DATA_"]
           [PStr "_DONE_"] (PInt 10) PNone PNone).
  apply sample_enumerates_under_prefix.
Defined.
